(** * OpenSanctions batch search: a shallow embedding of
      [opensanctions_batch_search.py] and the properties of its pipeline.

    Strings are modelled as ASCII strings ([string] of the Standard Library).
    The Python built-ins [str.strip], [str.lower], the operator [in] on
    strings, [str.join], list slicing, [urllib.parse.quote_plus], the default
    dialect of [csv.writer] and the two regular expressions of
    [extract_entities] are written out on that type.  [html.unescape] (a
    table of the Python library) is a parameter of the functions that call
    it.

    The outside world (input files, the network) is a record the program
    reads from.  What the program prints and writes is a list of effects, in
    order; the requests are reads of the world, and the pauses between them
    ([time.sleep]) and the time limit of a request leave no trace in the
    model.

    The terminal program [opensanctions_terminal_search.py] is embedded in
    [Module Terminal] on the same world, with the lines of its standard
    input and its clock as further inputs. *)

From Stdlib Require Import ZArith Ascii.
From stdpp Require Import gmap strings list pretty.

Local Open Scope Z_scope.

(** ** Characters and strings as Python sees them *)

Module Py.

(** The double quote, character 34. *)
Definition dquote : ascii :=
  Ascii false true false false false true false false.

(** [c.isspace()] for a character below 128: tab, newline, vertical tab, form
    feed, carriage return, the four separators 28 to 31 and the space. *)
Definition isspace (c : ascii) : bool :=
  let n := N_of_ascii c in
  ((9 <=? n) && (n <=? 13) || (28 <=? n) && (n <=? 32))%N.

(** [c.lower()] for one character: the letters A to Z move by 32. *)
Definition lower_char (c : ascii) : ascii :=
  let n := N_of_ascii c in
  if ((65 <=? n) && (n <=? 90))%N then ascii_of_N (n + 32) else c.

(** [s.lower()] *)
Fixpoint lower (s : string) : string :=
  match s with
  | EmptyString => EmptyString
  | String c r => String (lower_char c) (lower r)
  end.

(** [s.lstrip()] *)
Fixpoint lstrip (s : string) : string :=
  match s with
  | EmptyString => EmptyString
  | String c r => if isspace c then lstrip r else s
  end.

(** [s.rstrip()]: a character is dropped when it is white and everything
    after it has been dropped. *)
Fixpoint rstrip (s : string) : string :=
  match s with
  | EmptyString => EmptyString
  | String c r =>
      match rstrip r with
      | EmptyString => if isspace c then EmptyString else String c EmptyString
      | r' => String c r'
      end
  end.

(** [s.strip()] *)
Definition strip (s : string) : string := rstrip (lstrip s).

(** Truth value of a string: [if s:] holds for the non-empty ones. *)
Definition truthy (s : string) : bool :=
  match s with EmptyString => false | String _ _ => true end.

(** [s.startswith(p)], returning what follows the prefix. *)
Fixpoint strip_prefix (p s : string) : option string :=
  match p, s with
  | EmptyString, _ => Some s
  | String a p', String b s' =>
      if Ascii.eqb a b then strip_prefix p' s' else None
  | String _ _, EmptyString => None
  end.

(** [needle in hay] on strings. *)
Fixpoint contains (needle hay : string) : bool :=
  match strip_prefix needle hay with
  | Some _ => true
  | None =>
      match hay with
      | EmptyString => false
      | String _ r => contains needle r
      end
  end.

(** [sep.join(parts)] *)
Fixpoint join (sep : string) (parts : list string) : string :=
  match parts with
  | [] => EmptyString
  | [p] => p
  | p :: rest => p +:+ sep +:+ join sep rest
  end.

(** [l[:n]] for a list and any integer [n]: a negative [n] counts from the
    end. *)
Definition slice_to {A} (n : Z) (l : list A) : list A :=
  if 0 <=? n then take (Z.to_nat n) l
  else take (Z.to_nat (Z.of_nat (length l) + n)) l.

(** [str(n)] for a natural number. *)
Definition str_nat (n : nat) : string := pretty n.

(** One hexadecimal digit, upper case, as [quote] prints it. *)
Definition hex_digit (n : N) : ascii :=
  if (n <? 10)%N then ascii_of_N (48 + n) else ascii_of_N (55 + n).

(** The characters [urllib.parse.quote] never escapes: letters, digits and
    [_.-~]. *)
Definition always_safe (c : ascii) : bool :=
  let n := N_of_ascii c in
  ((48 <=? n) && (n <=? 57) || (65 <=? n) && (n <=? 90)
   || (97 <=? n) && (n <=? 122)
   || (n =? 95) || (n =? 46) || (n =? 45) || (n =? 126))%N.

(** [urllib.parse.quote_plus(s)]: a space becomes a plus sign, a safe
    character stays, every other one becomes a percent sign and two
    hexadecimal digits. *)
Fixpoint quote_plus (s : string) : string :=
  match s with
  | EmptyString => EmptyString
  | String c r =>
      let n := N_of_ascii c in
      if (n =? 32)%N then String "+"%char (quote_plus r)
      else if always_safe c then String c (quote_plus r)
      else String "%"%char
             (String (hex_digit (n / 16)) (String (hex_digit (n mod 16))
                (quote_plus r)))
  end.

End Py.

(** ** Regular expressions of [extract_entities]

    Python's [re] is a backtracking matcher.  The pieces below try the
    alternatives in its order: a greedy repetition first takes as many
    characters as it can and gives them back one at a time, a lazy one first
    takes none.  A continuation receives the text a piece matched and the
    text that is left; the first alternative whose continuation succeeds
    wins. *)

Module Re.

Section Combinators.
Context {A : Type}.

(** [cls*] for a character class *)
Fixpoint star_greedy (cls : ascii -> bool) (s : string)
    (k : string -> string -> option A) : option A :=
  match s with
  | String c r =>
      if cls c then
        match star_greedy cls r (fun m rest => k (String c m) rest) with
        | Some x => Some x
        | None => k EmptyString s
        end
      else k EmptyString s
  | EmptyString => k EmptyString s
  end.

(** [cls+] *)
Definition plus_greedy (cls : ascii -> bool) (s : string)
    (k : string -> string -> option A) : option A :=
  match s with
  | String c r =>
      if cls c then star_greedy cls r (fun m rest => k (String c m) rest)
      else None
  | EmptyString => None
  end.

(** [.*?] under [re.DOTALL]: any character, as few as possible.  The
    matched text is passed in reverse. *)
Fixpoint star_lazy_rev (acc : string) (s : string)
    (k : string -> string -> option A) : option A :=
  match k acc s with
  | Some x => Some x
  | None =>
      match s with
      | String c r => star_lazy_rev (String c acc) r k
      | EmptyString => None
      end
  end.

(** a literal *)
Definition lit (p : string) (s : string) (k : string -> option A) : option A :=
  match Py.strip_prefix p s with
  | Some rest => k rest
  | None => None
  end.
End Combinators.

(** [[^>]] and [[^dquote]] *)
Definition not_gt (c : ascii) : bool := negb (Ascii.eqb c ">"%char).
Definition not_dquote (c : ascii) : bool := negb (Ascii.eqb c Py.dquote).

(** Every character of [s] is in the class. *)
Fixpoint all_chars (cls : ascii -> bool) (s : string) : bool :=
  match s with
  | EmptyString => true
  | String c r => cls c && all_chars cls r
  end.

(** One attempt of the anchor pattern
    [<a[^>]+href=Q(/entities/[^Q]+)Q[^>]*>(.*?)</a>] (Q the double quote) at
    the start of [s]: the two groups and the text after the match. *)
Definition anchor_at (s : string) : option (string * string * string) :=
  lit "<a" s (fun s1 =>
  plus_greedy not_gt s1 (fun _ s2 =>
  lit "href=" s2 (fun s3 =>
  lit (String Py.dquote EmptyString) s3 (fun s4 =>
  lit "/entities/" s4 (fun s5 =>
  plus_greedy not_dquote s5 (fun u s6 =>
  lit (String Py.dquote EmptyString) s6 (fun s7 =>
  star_greedy not_gt s7 (fun _ s8 =>
  lit ">" s8 (fun s9 =>
  star_lazy_rev EmptyString s9 (fun t s10 =>
  lit "</a>" s10 (fun s11 =>
  Some ("/entities/" +:+ u, String.rev t, s11)))))))))))).

(** [pattern.findall(s)]: the scan tries the pattern at each position from
    left to right and resumes after a match.  [skip] counts the characters
    of the last match still to be passed over. *)
Fixpoint findall_from (skip : nat) (s : string) : list (string * string) :=
  match skip with
  | S n =>
      match s with
      | String _ r => findall_from n r
      | EmptyString => []
      end
  | O =>
      match anchor_at s with
      | Some (g1, g2, rest) =>
          (g1, g2) ::
          match s with
          | String _ r =>
              findall_from (String.length s - String.length rest - 1)%nat r
          | EmptyString => []
          end
      | None =>
          match s with
          | String _ r => findall_from O r
          | EmptyString => []
          end
      end
  end.

Definition findall (s : string) : list (string * string) := findall_from O s.

(** One attempt of the tag pattern [<[^>]+>] at the start of [s]: the text
    after the match. *)
Definition tag_at (s : string) : option string :=
  lit "<" s (fun s1 =>
  plus_greedy not_gt s1 (fun _ s2 =>
  lit ">" s2 (fun s3 => Some s3))).

(** [re.sub(tag pattern, empty string, s)]: every match is removed, the other
    characters are kept. *)
Fixpoint sub_tags_from (skip : nat) (s : string) : string :=
  match skip with
  | S n =>
      match s with
      | String _ r => sub_tags_from n r
      | EmptyString => EmptyString
      end
  | O =>
      match tag_at s with
      | Some rest =>
          match s with
          | String _ r =>
              sub_tags_from (String.length s - String.length rest - 1)%nat r
          | EmptyString => EmptyString
          end
      | None =>
          match s with
          | String c r => String c (sub_tags_from O r)
          | EmptyString => EmptyString
          end
      end
  end.

Definition sub_tags (s : string) : string := sub_tags_from O s.

End Re.

(** Text with a double quote in it is built with [q]. *)
Definition q : string := String Py.dquote EmptyString.

Definition anchor (href text : string) : string :=
  "<a href=" +:+ q +:+ href +:+ q +:+ ">" +:+ text +:+ "</a>".

(** ** The program *)

Definition BASE_SEARCH_URL (query : string) : string :=
  "https://www.opensanctions.org/search/?q=" +:+ query.

Definition NO_MATCH_MARKER : string := "No matching entities were found.".

(** [unique_preserve_order]: the loop over [values] with its two variables,
    the set [seen] and the list [out]. *)
Fixpoint unique_loop (seen : gset string) (out : list string)
    (values : list string) : list string :=
  match values with
  | [] => out
  | value :: rest =>
      let key := Py.lower (Py.strip value) in
      if decide (key ∈ seen) then unique_loop seen out rest
      else unique_loop ({[key]} ∪ seen) (out ++ [value]) rest
  end.

Definition unique_preserve_order (values : list string) : list string :=
  unique_loop ∅ [] values.

Section Extraction.
(** [html.unescape] of the Python library. *)
Context (unescape : string -> string).

(** The title [extract_entities] computes from the text of an anchor. *)
Definition clean_title (raw_title : string) : string :=
  Py.strip (unescape (Re.sub_tags raw_title)).

Definition abs_url_of (rel_url : string) : string :=
  "https://www.opensanctions.org" +:+ rel_url.

(** The loop of [extract_entities] over the matches of the pattern, with
    its two variables [seen] and [entities]; the loop ends early at the
    [break]. *)
Fixpoint extract_loop (max_links : Z) (seen : gset (string * string))
    (entities : list (string * string))
    (matches : list (string * string)) : list (string * string) :=
  match matches with
  | [] => entities
  | (rel_url, raw_title) :: rest =>
      let abs_url := abs_url_of rel_url in
      let title := clean_title raw_title in
      let key := (abs_url, Py.lower title) in
      if decide (key ∈ seen) then extract_loop max_links seen entities rest
      else
        let seen' := {[key]} ∪ seen in
        let entities' := entities ++ [(title, abs_url)] in
        if Z.of_nat (length entities') >=? max_links then entities'
        else extract_loop max_links seen' entities' rest
  end.

Definition extract_entities (html_text : string) (max_links : Z)
    : list (string * string) :=
  extract_loop max_links ∅ [] (Re.findall html_text).

End Extraction.

(** [html.unescape] returns a text without an ampersand as it is; this
    instance serves the examples, whose texts have none. *)
Definition unescape_plain (s : string) : string := s.

(** *** The outside world and the command line *)

(** What one request returns: the decoded body, or the text [str(exc)] of
    the exception that [urlopen], [read] or [decode] raised. *)
Inductive response :=
  | Body (page : string)
  | Raises (exc_text : string).

(** The world the program reads from.  A text file is the list of its lines,
    a CSV file the list of the rows [csv.DictReader] yields (each row a
    dictionary from column name to cell; a missing cell and a missing column
    are both absent).  A path outside the map cannot be opened.  [net i url]
    is what the [i]-th request of the run returns for [url]. *)
Record world := World {
  txt_files : gmap string (list string);
  csv_files : gmap string (list (gmap string string));
  net : nat -> string -> response
}.

(** The options of [parse_args] the pipeline reads.  The two floating-point
    options, [timeout] and [sleep], only bound and space out the requests. *)
Record args := Args {
  name : list string;
  input_txt : option string;
  input_csv : option string;
  name_column : string;
  first_name_column : string;
  last_name_column : string;
  output : string;
  max_links : Z;
  no_dedupe : bool;
  limit : Z
}.

(** Truth value of an option that defaults to [None]. *)
Definition given (o : option string) : option string :=
  match o with
  | Some p => if Py.truthy p then Some p else None
  | None => None
  end.

(** What the program does to the world, in order. *)
Inductive effect :=
  | Stderr (line : string)
  | Stdout (line : string)
  | WriteFile (path : string) (content : string).

(** How a run ends: [sys.exit(code)], or an exception nobody caught (the
    interpreter then prints a traceback and exits with code 1). *)
Inductive outcome :=
  | Exit (code : Z)
  | Uncaught.

(** *** Loading names *)

(** [load_names_from_txt]; [None] when the file cannot be opened. *)
Definition load_names_from_txt (w : world) (path : string)
    : option (list string) :=
  match txt_files w !! path with
  | Some lines =>
      Some (filter (fun n => Py.truthy n = true) (Py.strip <$> lines))
  | None => None
  end.

(** [(row.get(col) or empty).strip()] *)
Definition cell (row : gmap string string) (col : string) : string :=
  Py.strip (default EmptyString (row !! col)).

(** The name a CSV row resolves to. *)
Definition full_name_of (name_col first_col last_col : string)
    (row : gmap string string) : string :=
  if Py.truthy name_col then cell row name_col
  else
    let first := cell row first_col in
    let last := cell row last_col in
    Py.strip (Py.join " " (filter (fun p => Py.truthy p = true) [first; last])).

(** The loop of [load_names_from_csv]: [i] is the number [enumerate] gives
    the row, [names] and [skipped_rows] are the two lists it appends to. *)
Fixpoint csv_loop (name_col first_col last_col : string) (i : nat)
    (names : list string) (skipped_rows : list nat)
    (rows : list (gmap string string)) : list string * list nat :=
  match rows with
  | [] => (names, skipped_rows)
  | row :: rest =>
      let full_name := full_name_of name_col first_col last_col row in
      if Py.truthy full_name
      then csv_loop name_col first_col last_col (S i)
             (names ++ [full_name]) skipped_rows rest
      else csv_loop name_col first_col last_col (S i)
             names (skipped_rows ++ [i]) rest
  end.

(** [load_names_from_csv]; [None] when the file cannot be opened. *)
Definition load_names_from_csv (w : world)
    (path name_col first_col last_col : string)
    : option (list string * list nat) :=
  match csv_files w !! path with
  | Some rows => Some (csv_loop name_col first_col last_col 2%nat [] [] rows)
  | None => None
  end.

(** The notice [build_name_list] writes for a non-empty [skipped]. *)
Definition skipped_notice (skipped : list nat) : string :=
  "Skipped " +:+ Py.str_nat (length skipped) +:+ " empty row(s) in CSV: "
  +:+ Py.join ", " (Py.str_nat <$> Py.slice_to 10 skipped)
  +:+ (if (10 <? length skipped)%nat then " ..." else EmptyString).

(** The first part of [build_name_list], up to the deduplication: the names
    of the three sources in the order explicit, text file, CSV file, and the
    notices; [None] when an input file cannot be opened. *)
Definition collect_names (w : world) (a : args)
    : option (list string * list string) :=
  let names0 :=
    filter (fun n => Py.truthy n = true) (Py.strip <$> name a) in
  let from_txt :=
    match given (input_txt a) with
    | Some path => load_names_from_txt w path
    | None => Some []
    end in
  let from_csv :=
    match given (input_csv a) with
    | Some path =>
        load_names_from_csv w path (name_column a)
          (first_name_column a) (last_name_column a)
    | None => Some ([], [])
    end in
  match from_txt, from_csv with
  | Some txt_names, Some (csv_names, skipped) =>
      Some (names0 ++ txt_names ++ csv_names,
            match skipped with
            | [] => []
            | _ :: _ => [skipped_notice skipped]
            end)
  | _, _ => None
  end.

(** [build_name_list]: [collect_names], then [unique_preserve_order] unless
    [--no-dedupe] was given. *)
Definition build_name_list (w : world) (a : args)
    : option (list string * list string) :=
  match collect_names w a with
  | Some (names, notices) =>
      Some (if no_dedupe a then names else unique_preserve_order names,
            notices)
  | None => None
  end.

(** *** One query *)

(** [fetch_search_html] as the [i]-th request of the run: the URL and the
    page, or the text of the exception raised. *)
Definition fetch_search_html (w : world) (i : nat) (name : string)
    : string * string + string :=
  let query := Py.quote_plus name in
  let url := BASE_SEARCH_URL query in
  match net w i url with
  | Body body => inl (url, body)
  | Raises exc_text => inr exc_text
  end.

(** A row of [result_rows]. *)
Record result_row := Row {
  query_name : string;
  status : string;
  match_count : nat;
  search_url : string;
  entity_results : string;
  error : string
}.

(** One entry of the [entity_results] cell. *)
Definition entity_entry (e : string * string) : string :=
  let '(title, url) := e in
  if Py.truthy title then title +:+ " (" +:+ url +:+ ")" else url.

Definition UNKNOWN_NOTE : string :=
  "Search page returned without parseable entity links.".

Section Pipeline.
Context (unescape : string -> string).

(** The body of the loop of [main] for the [i]-th name: the [try] block
    and its [except Exception] handler. *)
Definition process_query (w : world) (a : args) (i : nat) (name : string)
    : result_row :=
  match fetch_search_html w i name with
  | inl (search_url, page) =>
      if Py.contains NO_MATCH_MARKER page
      then Row name "no_match" 0 search_url EmptyString EmptyString
      else
        let entities := extract_entities unescape page (max_links a) in
        match entities with
        | _ :: _ =>
            let entity_str := Py.join " | " (entity_entry <$> entities) in
            Row name "match" (length entities) search_url entity_str
              EmptyString
        | [] =>
            Row name "unknown" 0 search_url EmptyString UNKNOWN_NOTE
        end
  | inr exc_text =>
      let query := Py.quote_plus name in
      let search_url := BASE_SEARCH_URL query in
      Row name "error" 0 search_url EmptyString exc_text
  end.

(** The loop of [main] over [enumerate(names, start=1)], appending to
    [result_rows]. *)
Fixpoint batch_loop (w : world) (a : args) (i : nat)
    (result_rows : list result_row) (names : list string)
    : list result_row :=
  match names with
  | [] => result_rows
  | name :: rest =>
      batch_loop w a (S i) (result_rows ++ [process_query w a i name]) rest
  end.

(** *** The report *)

Definition CRLF : string :=
  String (ascii_of_N 13) (String (ascii_of_N 10) EmptyString).

(** [csv.writer] with the default dialect quotes a field that holds a
    comma, a double quote, a carriage return or a line feed, and doubles
    each double quote inside. *)
Definition csv_special (c : ascii) : bool :=
  let n := N_of_ascii c in
  ((n =? 44) || (n =? 34) || (n =? 13) || (n =? 10))%N.

Fixpoint csv_needs_quotes (s : string) : bool :=
  match s with
  | EmptyString => false
  | String c r => csv_special c || csv_needs_quotes r
  end.

Fixpoint csv_double_quotes (s : string) : string :=
  match s with
  | EmptyString => EmptyString
  | String c r =>
      if Ascii.eqb c Py.dquote
      then String c (String c (csv_double_quotes r))
      else String c (csv_double_quotes r)
  end.

Definition csv_field (s : string) : string :=
  if csv_needs_quotes s
  then String Py.dquote (csv_double_quotes s +:+ String Py.dquote EmptyString)
  else s.

(** [writer.writerow(fields)] *)
Definition csv_line (fields : list string) : string :=
  Py.join "," (csv_field <$> fields) +:+ CRLF.

Definition HEADER : list string :=
  ["query_name"; "status"; "match_count"; "search_url"; "entity_results";
   "error"].

(** The fields [csv.writer] receives for a row: the count goes through
    [str]. *)
Definition row_fields (r : result_row) : list string :=
  [query_name r; status r; Py.str_nat (match_count r); search_url r;
   entity_results r; error r].

(** [writer.writerows(rows)] *)
Fixpoint writerows (rows : list result_row) : string :=
  match rows with
  | [] => EmptyString
  | r :: rest => csv_line (row_fields r) +:+ writerows rest
  end.

(** [write_results]: the file is opened for writing, which empties it, and
    receives the header and the rows. *)
Definition write_results (path : string) (rows : list result_row)
    : list effect :=
  [WriteFile path (csv_line HEADER +:+ writerows rows)].

(** *** [main] *)

Definition NO_NAMES : string :=
  "No names provided. Use --name, --input-txt or --input-csv.".

(** [names = names[: args.limit]] under its guard [args.limit > 0]. *)
Definition limit_names (a : args) (names : list string) : list string :=
  if 0 <? limit a then Py.slice_to (limit a) names else names.

Definition count_status (s : string) (rows : list result_row) : nat :=
  length (filter (fun r => status r = s) rows).

Definition summary (a : args) (result_rows : list result_row) : string :=
  "Done. Output: " +:+ output a
  +:+ " | total=" +:+ Py.str_nat (length result_rows)
  +:+ ", match=" +:+ Py.str_nat (count_status "match" result_rows)
  +:+ ", no_match=" +:+ Py.str_nat (count_status "no_match" result_rows)
  +:+ ", error=" +:+ Py.str_nat (count_status "error" result_rows).

(** [main]: how the run ends and what it did to the world. *)
Definition main (w : world) (a : args) : outcome * list effect :=
  match build_name_list w a with
  | None => (Uncaught, [])
  | Some (names, notices) =>
      match names with
      | [] => (Exit 2, [Stderr NO_NAMES])
      | _ :: _ =>
          let names := limit_names a names in
          let result_rows := batch_loop w a 1%nat [] names in
          (Exit 0,
           write_results (output a) result_rows
           ++ ((fun notice => Stderr ("Notice: " +:+ notice)) <$> notices)
           ++ [Stdout (summary a result_rows)])
      end
  end.

End Pipeline.

(** ** Notions the properties are stated with *)

Section FirstOccurrences.
Context {A K : Type} `{EqDecision K} (key : A -> K).

(** The first occurrences of a list under a key: the head stays, and
    nothing after it with the key of the head does. *)
Fixpoint first_occurrences (l : list A) : list A :=
  match l with
  | [] => []
  | x :: r => x :: filter (fun y => key y <> key x) (first_occurrences r)
  end.
End FirstOccurrences.


(** The key of an entity link [(title, url)]. *)
Definition entity_key (e : string * string) : string * string :=
  (e.2, Py.lower e.1).

(** The entity link of one match [(rel_url, raw_title)] of the pattern. *)
Definition entity_of (unescape : string -> string) (m : string * string)
    : string * string :=
  (clean_title unescape m.2, abs_url_of m.1).

(** The entity anchors of a page, in document order. *)
Definition entity_anchors (unescape : string -> string) (html_text : string)
    : list (string * string) :=
  entity_of unescape <$> Re.findall html_text.

(** ** Small worlds and command lines for the examples *)

(** A world with no input file, where every request times out. *)
Definition quiet_world : world :=
  World ∅ ∅ (fun _ _ => Raises "timed out").

(** A command line with only [--name] options, [--no-dedupe] and
    [--limit]; the other options keep their defaults. *)
Definition cli (names : list string) (no_dedupe : bool) (limit : Z) : args :=
  Args names None None EmptyString "Vorname" "Nachname"
    "opensanctions_results.csv" 3 no_dedupe limit.

(** A world with no input file, where every request returns [page]. *)
Definition page_world (page : string) : world :=
  World ∅ ∅ (fun _ _ => Body page).

(** A world with one CSV file and no network. *)
Definition csv_world (path : string) (rows : list (gmap string string))
    : world :=
  World ∅ {[path := rows]} (fun _ _ => Raises "timed out").


(** A command line with only [--input-csv]. *)
Definition cli_csv (path : string) : args :=
  Args [] None (Some path) EmptyString "Vorname" "Nachname"
    "opensanctions_results.csv" 3 false 0.

(** The numbers [enumerate] gives, counting from [i], to the rows whose name
    is blank. *)
Fixpoint blank_row_numbers (full_name : gmap string string -> string)
    (i : nat) (rows : list (gmap string string)) : list nat :=
  match rows with
  | [] => []
  | row :: rest =>
      if Py.truthy (full_name row)
      then blank_row_numbers full_name (S i) rest
      else i :: blank_row_numbers full_name (S i) rest
  end.

(** The entry of the [entity_results] cell as the specification words it:
    the title, a space and the URL in parentheses. *)
Definition title_url_pair (e : string * string) : string :=
  e.1 +:+ " (" +:+ e.2 +:+ ")".

(** A page whose only entity anchor wraps an image and has no text. *)
Definition image_anchor_page : string :=
  "<ul><li>" +:+ anchor "/entities/Q1" ("<img src=" +:+ q +:+ "q1.png" +:+ q +:+ ">")
  +:+ "</li></ul>".

(** A page with neither the marker nor an entity anchor. *)
Definition bare_page : string := "<html><body>Service notice</body></html>".

(** A world whose first request times out and whose later requests return
    [page]. *)
Definition flaky_world (page : string) : world :=
  World ∅ ∅ (fun i _ => match i with 1%nat => Raises "timed out" | _ => Body page end).

(** ** The terminal program, [opensanctions_terminal_search.py]

    Its [fetch_search_html] and [extract_entities] are the functions of the
    batch program, character for character.  What it does to the terminal
    is a list of [tty] effects: a call of [print] with its text, or the
    prompt of a call of [input]. *)

Module Terminal.

Inductive tty :=
  | Print (text : string)
  | Prompt (text : string).

(** The options of its [parse_args] (without the time limit). *)
Record args := Args {
  name : string;
  max_links : Z
}.

(** The line feed. *)
Definition NL : string := String (ascii_of_N 10) EmptyString.

(** [str(n)] for an integer. *)
Definition str_Z (n : Z) : string := pretty n.

(** The two lines the loop of [search_once] prints for the entity with
    number [idx]. *)
Definition entity_lines (idx : nat) (e : string * string) : list tty :=
  let '(title, link) := e in
  let label := if Py.truthy title then title else "(ohne Titel)" in
  [Print (Py.str_nat idx +:+ ". " +:+ label); Print ("   " +:+ link)].

(** [for idx, (title, link) in enumerate(entities, start)]. *)
Fixpoint entities_lines (idx : nat) (entities : list (string * string))
    : list tty :=
  match entities with
  | [] => []
  | e :: rest => entity_lines idx e ++ entities_lines (S idx) rest
  end.

Section SearchOnce.
Context (unescape : string -> string).

(** [search_once], as the [i]-th request of the run: the code it returns
    and what it prints. *)
Definition search_once (w : world) (i : nat) (name : string)
    (max_links : Z) : Z * list tty :=
  match fetch_search_html w i name with
  | inr exc_text =>
      (1, [Print (NL +:+ "Name: " +:+ name);
           Print "Status: error";
           Print ("Fehler: " +:+ exc_text)])
  | inl (url, page) =>
      let head :=
        [Print (NL +:+ "Name: " +:+ name); Print ("Suche: " +:+ url)] in
      if Py.contains NO_MATCH_MARKER page
      then (0, head ++ [Print "Status: no_match"; Print "Treffer: 0"])
      else
        let entities := extract_entities unescape page max_links in
        match entities with
        | [] =>
            (0, head ++ [Print "Status: unknown";
                         Print "Hinweis: Seite ohne auslesbare Entity-Links."])
        | _ :: _ =>
            (0, head
                ++ [Print "Status: match";
                    Print ("Treffer (max " +:+ str_Z max_links +:+ "): "
                           +:+ Py.str_nat (length entities))]
                ++ entities_lines 1 entities)
        end
  end.

(** The names that end the interactive loop, compared after [lower()]. *)
Definition QUIT_COMMANDS : gset string :=
  {[ ":quit"; ":q"; "quit"; "exit" ]}.

(** The [while True] loop of [interactive_loop].  [stdin] holds the lines
    [input] will return; when it is used up [input] raises [EOFError] (an
    interrupt at the prompt ends the loop the same way).  [searches] counts
    the searches made so far; [clock k] is the time [datetime.now()] shows,
    formatted, after the search number [k]. *)
Fixpoint interactive_from (w : world) (max_links : Z)
    (clock : nat -> string) (searches : nat) (stdin : list string)
    : Z * list tty :=
  match stdin with
  | [] => (0, [Prompt (NL +:+ "Name> "); Print (NL +:+ "Beendet.")])
  | line :: rest =>
      let name := Py.strip line in
      if negb (Py.truthy name) then
        let '(code, out) := interactive_from w max_links clock searches rest in
        (code, Prompt (NL +:+ "Name> ") :: out)
      else if decide (Py.lower name ∈ QUIT_COMMANDS) then
        (0, [Prompt (NL +:+ "Name> "); Print "Beendet."])
      else
        let '(_, found) := search_once w (S searches) name max_links in
        let '(code, out) :=
          interactive_from w max_links clock (S searches) rest in
        (code,
         Prompt (NL +:+ "Name> ") :: found
         ++ Print ("Zeit: " +:+ clock (S searches)) :: out)
  end.

Definition BANNER : list tty :=
  [Print "OpenSanctions Terminalsuche";
   Print "Gib einen Namen ein und drücke Enter.";
   Print "Befehle: :quit oder :q beendet das Programm."].

(** [interactive_loop] *)
Definition interactive_loop (w : world) (max_links : Z)
    (clock : nat -> string) (stdin : list string) : Z * list tty :=
  let '(code, out) := interactive_from w max_links clock 0 stdin in
  (code, BANNER ++ out).

(** [main] of the terminal program. *)
Definition main (w : world) (a : args) (clock : nat -> string)
    (stdin : list string) : Z * list tty :=
  if Py.truthy (name a)
  then search_once w 1 (Py.strip (name a)) (max_links a)
  else interactive_loop w (max_links a) clock stdin.

End SearchOnce.

End Terminal.


(** A clock that shows the number of the search. *)
Definition tick_clock (k : nat) : string := "t" +:+ Py.str_nat k.

(** ** Reading a search URL back

    [unquote_plus] undoes [Py.quote_plus]; the program never calls it, it
    serves to show that the URL determines the name. *)

Definition hex_value (c : ascii) : N :=
  let n := N_of_ascii c in
  if (n <? 58)%N then (n - 48)%N else (n - 55)%N.

Fixpoint unquote_plus (s : string) : string :=
  match s with
  | EmptyString => EmptyString
  | String c r =>
      if Ascii.eqb c "+"%char then String " "%char (unquote_plus r)
      else if Ascii.eqb c "%"%char then
        match r with
        | String h (String l r') =>
            String (ascii_of_N (16 * hex_value h + hex_value l))
              (unquote_plus r')
        | _ => s
        end
      else String c (unquote_plus r)
  end.

(** The characters a quoted name is made of: letters, digits, [_.-~], the
    plus sign and the percent sign. *)
Definition url_char (c : ascii) : bool :=
  Py.always_safe c || Ascii.eqb c "+"%char || Ascii.eqb c "%"%char.

(** ** Reading a report field back

    [read_field] reads one field off the front of a line that [csv_line]
    wrote; the program never calls it, it serves to show that the report
    determines the rows. *)

(** A comma or a carriage return: what follows a field in a line. *)
Definition is_sep (c : ascii) : bool :=
  let n := N_of_ascii c in ((n =? 44) || (n =? 13))%N.

(** An unquoted field runs up to the next comma or carriage return. *)
Fixpoint read_plain (s : string) : string * string :=
  match s with
  | EmptyString => (EmptyString, EmptyString)
  | String c r =>
      if is_sep c then (EmptyString, s)
      else let '(f, rest) := read_plain r in (String c f, rest)
  end.

(** A quoted field, after its opening quote: a doubled quote stands for one
    quote, a single one closes the field. *)
Fixpoint read_quoted (s : string) : string * string :=
  match s with
  | EmptyString => (EmptyString, EmptyString)
  | String c r =>
      if Ascii.eqb c Py.dquote then
        match r with
        | String d r' =>
            if Ascii.eqb d Py.dquote
            then let '(f, rest) := read_quoted r' in (String d f, rest)
            else (EmptyString, r)
        | EmptyString => (EmptyString, EmptyString)
        end
      else let '(f, rest) := read_quoted r in (String c f, rest)
  end.

Definition read_field (s : string) : string * string :=
  match s with
  | String c r => if Ascii.eqb c Py.dquote then read_quoted r else read_plain s
  | EmptyString => (EmptyString, EmptyString)
  end.

(** The text starts with a comma or a carriage return. *)
Definition starts_with_sep (s : string) : Prop :=
  exists c r, s = String c r /\ is_sep c = true.




(** The rest of the tag pattern after the first character of [[^>]+]. *)
Definition tag_tail (s : string) : option string :=
  Re.star_greedy Re.not_gt s
    (fun _ s2 => Re.lit ">" s2 (fun s3 => Some s3)).

(** ** The model at work on small inputs *)

Example strip_demo : Py.strip "  Jane Doe  " = "Jane Doe".
Proof. reflexivity. Qed.

Example lower_demo : Py.lower "Jane DOE-9" = "jane doe-9".
Proof. reflexivity. Qed.

Example quote_plus_demo : Py.quote_plus "Jane D/e" = "Jane+D%2Fe".
Proof. vm_compute. reflexivity. Qed.

Example str_nat_demo : Py.str_nat 120 = "120".
Proof. vm_compute. reflexivity. Qed.

Example slice_demo : Py.slice_to (-1) [1;2;3] = [1;2] /\ Py.slice_to 5 [1;2;3] = [1;2;3].
Proof. split; reflexivity. Qed.

Example findall_demo :
  Re.findall ("<p>" +:+ anchor "/entities/Q7747" "<b>Vladimir</b> Putin"
              +:+ "x" +:+ anchor "/other/1" "no" +:+ anchor "/entities/NK-1" "Kim" +:+ "</p>")
  = [("/entities/Q7747", "<b>Vladimir</b> Putin"); ("/entities/NK-1", "Kim")].
Proof. vm_compute. reflexivity. Qed.

Example sub_tags_demo :
  Re.sub_tags "<b>Vladimir</b> <i class=x>Putin</i> <> a<b" = "Vladimir Putin <> a<b".
Proof. vm_compute. reflexivity. Qed.

Example unique_demo :
  unique_preserve_order ["Jane Doe"; " jane doe "; "Bob"; "JANE DOE"; "bob "; "Al"]
  = ["Jane Doe"; "Bob"; "Al"].
Proof. vm_compute. reflexivity. Qed.

Example extract_demo :
  extract_entities unescape_plain
    (anchor "/entities/Q1" "<b>Ann</b> " +:+ anchor "/entities/Q1" "ANN"
     +:+ anchor "/entities/Q2" "Bob" +:+ anchor "/entities/Q3" "Cy") 2
  = [("Ann", "https://www.opensanctions.org/entities/Q1");
     ("Bob", "https://www.opensanctions.org/entities/Q2")].
Proof. vm_compute. reflexivity. Qed.

(** ** Substrings *)

Lemma append_cons (c : ascii) (s t : string) :
  String c s +:+ t = String c (s +:+ t).
Proof. reflexivity. Qed.

Lemma append_nil (t : string) : EmptyString +:+ t = t.
Proof. reflexivity. Qed.

Lemma strip_prefix_append (p s : string) :
  Py.strip_prefix p (p +:+ s) = Some s.
Proof.
  induction p as [|c p IH]; [by destruct s|].
  rewrite append_cons. simpl. by rewrite Ascii.eqb_refl.
Qed.

Lemma strip_prefix_Some (p s r : string) :
  Py.strip_prefix p s = Some r -> s = p +:+ r.
Proof.
  revert s. induction p as [|c p IH]; intros s.
  - destruct s; simpl; intros [= <-]; reflexivity.
  - destruct s as [|d s]; simpl; [done|].
    destruct (Ascii.eqb_spec c d) as [->|]; [|done].
    intros ->%IH. by rewrite append_cons.
Qed.

Lemma contains_append (needle pre post : string) :
  Py.contains needle (pre +:+ needle +:+ post) = true.
Proof.
  induction pre as [|c pre IH].
  - rewrite append_nil.
    destruct (needle +:+ post) eqn:E; simpl; rewrite <- E;
      by rewrite strip_prefix_append.
  - rewrite append_cons. simpl. rewrite IH.
    by destruct (Py.strip_prefix needle _).
Qed.

Lemma contains_true (needle hay : string) :
  Py.contains needle hay = true ->
  exists pre post, hay = pre +:+ needle +:+ post.
Proof.
  induction hay as [|c hay IH]; simpl.
  - destruct (Py.strip_prefix needle EmptyString) as [r|] eqn:E; [|done].
    intros _. exists EmptyString, r. rewrite append_nil.
      by apply strip_prefix_Some.
  - destruct (Py.strip_prefix needle (String c hay)) as [r|] eqn:E.
    + intros _. exists EmptyString, r. rewrite append_nil.
      by apply strip_prefix_Some.
    + intros (pre & post & ->)%IH. by exists (String c pre), post.
Qed.

(** ** What a match of the patterns looks like *)

Lemma append_assoc (s t u : string) : (s +:+ t) +:+ u = s +:+ t +:+ u.
Proof.
  induction s as [|c s IH]; [done|]. by rewrite !append_cons, IH.
Qed.

Lemma rev_app_rev_app (m a b : string) :
  String.rev_app (String.rev_app m a) b = String.rev_app a (m +:+ b).
Proof.
  revert a b. induction m as [|c m IH]; intros a b; [done|].
  simpl. by rewrite IH.
Qed.

Section MatcherFacts.
Context {A : Type}.
Implicit Types (k : string -> string -> option A) (x : A).

Lemma lit_sound (p s : string) (k' : string -> option A) x :
  Re.lit p s k' = Some x -> exists rest, s = p +:+ rest /\ k' rest = Some x.
Proof.
  unfold Re.lit. destruct (Py.strip_prefix p s) as [rest|] eqn:E; [|done].
  intros Hk. exists rest. split; [by apply strip_prefix_Some|done].
Qed.

Lemma star_greedy_sound cls s k x :
  Re.star_greedy cls s k = Some x ->
  exists m rest,
    s = m +:+ rest /\ Re.all_chars cls m = true /\ k m rest = Some x.
Proof.
  revert k. induction s as [|c r IH]; intros k; simpl.
  - intros Hk. by exists EmptyString, EmptyString.
  - destruct (cls c) eqn:Hc.
    + destruct (Re.star_greedy cls r _) as [y|] eqn:E.
      * intros [= ->]. apply IH in E as (m & rest & -> & Hm & Hk).
        exists (String c m), rest. split_and!; [done| |done].
        simpl. by rewrite Hc, Hm.
      * intros Hk. by exists EmptyString, (String c r).
    + intros Hk. by exists EmptyString, (String c r).
Qed.

Lemma plus_greedy_sound cls s k x :
  Re.plus_greedy cls s k = Some x ->
  exists m rest,
    s = m +:+ rest /\ m <> EmptyString /\ Re.all_chars cls m = true
    /\ k m rest = Some x.
Proof.
  unfold Re.plus_greedy. destruct s as [|c r]; [done|].
  destruct (cls c) eqn:Hc; [|done].
  intros (m & rest & -> & Hm & Hk)%star_greedy_sound.
  exists (String c m), rest. split_and!; [done|done| |done].
  simpl. by rewrite Hc, Hm.
Qed.

Lemma star_lazy_rev_sound acc s k x :
  Re.star_lazy_rev acc s k = Some x ->
  exists m rest, s = m +:+ rest /\ k (String.rev_app m acc) rest = Some x.
Proof.
  revert acc. induction s as [|c r IH]; intros acc; simpl.
  - destruct (k acc EmptyString) eqn:E; [|done].
    intros [= ->]. by exists EmptyString, EmptyString.
  - destruct (k acc (String c r)) eqn:E.
    + intros [= ->]. by exists EmptyString, (String c r).
    + intros (m & rest & -> & Hk)%IH. by exists (String c m), rest.
Qed.
End MatcherFacts.

(** A match of the anchor pattern is an anchor: the text at the position
    reads [<a], attributes, [href=] and the quoted target under
    [/entities/], more attributes, [>], the text of the anchor, [</a>]. *)
Lemma anchor_at_sound (s g1 g2 rest : string) :
  Re.anchor_at s = Some (g1, g2, rest) ->
  exists attrs u attrs',
    s = "<a" +:+ attrs +:+ "href=" +:+ q +:+ g1 +:+ q +:+ attrs' +:+ ">"
        +:+ g2 +:+ "</a>" +:+ rest
    /\ g1 = "/entities/" +:+ u
    /\ attrs <> EmptyString /\ Re.all_chars Re.not_gt attrs = true
    /\ u <> EmptyString /\ Re.all_chars Re.not_dquote u = true
    /\ Re.all_chars Re.not_gt attrs' = true.
Proof.
  unfold Re.anchor_at.
  intros (s1 & -> & H)%lit_sound.
  apply plus_greedy_sound in H as (attrs & s2 & -> & Hne & Hattrs & H).
  apply lit_sound in H as (s3 & -> & H).
  apply lit_sound in H as (s4 & -> & H).
  apply lit_sound in H as (s5 & -> & H).
  apply plus_greedy_sound in H as (u & s6 & -> & Hu & Hcls & H).
  apply lit_sound in H as (s7 & -> & H).
  apply star_greedy_sound in H as (attrs' & s8 & -> & Hattrs' & H).
  apply lit_sound in H as (s9 & -> & H).
  apply star_lazy_rev_sound in H as (t & s10 & -> & H).
  apply lit_sound in H as (s11 & -> & H).
  injection H as <- <- <-.
  exists attrs, u, attrs'. split_and!; try done.
  unfold String.rev. rewrite rev_app_rev_app. simpl.
  assert (t +:+ EmptyString = t) as ->.
  { induction t as [|c t IH]; [done|]. by rewrite append_cons, IH. }
  by rewrite !append_assoc.
Qed.

Lemma tag_at_sound (s rest : string) :
  Re.tag_at s = Some rest ->
  exists m,
    s = "<" +:+ m +:+ ">" +:+ rest /\ m <> EmptyString
    /\ Re.all_chars Re.not_gt m = true.
Proof.
  unfold Re.tag_at.
  intros (s1 & -> & H)%lit_sound.
  apply plus_greedy_sound in H as (m & s2 & -> & Hne & Hm & H).
  apply lit_sound in H as (s3 & -> & H). injection H as <-.
  by exists m.
Qed.

(** ** Lists of first occurrences *)

Section FirstOccurrencesFacts.
Context {A K : Type} `{EqDecision K} (key : A -> K).

Lemma first_occurrences_sublist (l : list A) :
  sublist (first_occurrences key l) l.
Proof.
  induction l as [|x r IH]; simpl; [constructor|].
  apply sublist_skip. etrans; [apply sublist_filter|exact IH].
Qed.

Lemma first_occurrences_elem (l : list A) (x : A) :
  x ∈ first_occurrences key l -> x ∈ l.
Proof. intros Hx. eapply elem_of_sublist; [exact Hx|apply first_occurrences_sublist]. Qed.




End FirstOccurrencesFacts.

(** ** Deduplication of names *)

Lemma filter_all {A} (P : A -> Prop) `{forall x, Decision (P x)} (l : list A) :
  (forall x, P x) -> filter P l = l.
Proof.
  intros HP. induction l as [|x l IH]; [done|].
  rewrite filter_cons_True by done. by rewrite IH.
Qed.





(** ** Blank rows of the CSV file *)

Section CsvFacts.
Context (name_col first_col last_col : string).
Local Abbreviation full_name := (full_name_of name_col first_col last_col).

Lemma csv_loop_spec (i : nat) (names : list string) (skipped : list nat)
    (rows : list (gmap string string)) :
  csv_loop name_col first_col last_col i names skipped rows
  = (names ++ filter (fun n => Py.truthy n = true) (full_name <$> rows),
     skipped ++ blank_row_numbers full_name i rows).
Proof.
  revert i names skipped.
  induction rows as [|row rest IH]; intros i names skipped.
  - simpl. by rewrite filter_nil, !app_nil_r.
  - cbn [csv_loop blank_row_numbers]. rewrite fmap_cons, filter_cons.
    destruct (Py.truthy (full_name row)) eqn:E.
    + rewrite decide_True by done. rewrite IH, <- app_assoc. done.
    + rewrite decide_False by done. rewrite IH, <- app_assoc. done.
Qed.


End CsvFacts.




(** ** The limit *)

(** C10: the limit truncates the name list only when it is strictly positive:
    with a limit of 0 or a negative limit the list is unchanged, with a
    positive limit exactly the first [limit] names are kept (all of them when
    there are fewer). *)
Theorem limit_only_when_positive (a : args) (names : list string) :
  (limit a <= 0 -> limit_names a names = names)
  /\ (0 < limit a ->
      limit_names a names = take (Z.to_nat (limit a)) names
      /\ length (limit_names a names)
         = Nat.min (Z.to_nat (limit a)) (length names)).
Proof.
  unfold limit_names, Py.slice_to. split; intros Hl.
  - destruct (Z.ltb_spec 0 (limit a)); [lia|done].
  - destruct (Z.ltb_spec 0 (limit a)); [|lia].
    destruct (Z.leb_spec 0 (limit a)); [|lia].
    split; [done|]. apply length_take.
Qed.

Lemma limit_only_when_positive_witness :
  limit_names (cli [] false 0) ["a"; "b"; "c"] = ["a"; "b"; "c"]
  /\ limit_names (cli [] false (-2)) ["a"; "b"; "c"] = ["a"; "b"; "c"]
  /\ limit_names (cli [] false 2) ["a"; "b"; "c"] = ["a"; "b"]
  /\ limit_names (cli [] false 7) ["a"; "b"; "c"] = ["a"; "b"; "c"].
Proof.
  split_and!.
  - apply (limit_only_when_positive (cli [] false 0)). simpl. lia.
  - apply (limit_only_when_positive (cli [] false (-2))). simpl. lia.
  - apply (limit_only_when_positive (cli [] false 2) ["a"; "b"; "c"]). simpl. lia.
  - apply (limit_only_when_positive (cli [] false 7) ["a"; "b"; "c"]). simpl. lia.
Defined.

(** ** Extraction of entity links *)

Section ExtractionFacts.
Context (unescape : string -> string).

Lemma extract_loop_take (max_links : Z) (seen : gset (string * string))
    (entities matches : list (string * string)) :
  extract_loop unescape max_links seen entities matches
  = entities
    ++ take (Z.to_nat (Z.max 1 (max_links - Z.of_nat (length entities))))
         (filter (fun e => entity_key e ∉ seen)
            (first_occurrences entity_key (entity_of unescape <$> matches))).
Proof.
  revert seen entities.
  induction matches as [|[rel_url raw_title] rest IH]; intros seen entities.
  - simpl. by rewrite filter_nil, take_nil, app_nil_r.
  - cbn [extract_loop]. rewrite fmap_cons. cbn [first_occurrences].
    set (e := entity_of unescape (rel_url, raw_title)).
    change (abs_url_of rel_url, Py.lower (clean_title unescape raw_title))
      with (entity_key e).
    change (clean_title unescape raw_title, abs_url_of rel_url) with e.
    rewrite filter_cons, list_filter_filter.
    destruct (decide (entity_key e ∈ seen)) as [Hin|Hin].
    + rewrite decide_False by tauto. rewrite IH. do 2 f_equal.
      apply list_filter_iff. intros y. split; [|tauto].
      intros Hy. split; [done|]. intros Heq. apply Hy. by rewrite Heq.
    + rewrite decide_True by done.
      assert (filter (fun y => (entity_key y ∉ seen) /\ entity_key y <> entity_key e)
                (first_occurrences entity_key (entity_of unescape <$> rest))
              = filter (fun y => entity_key y ∉ {[entity_key e]} ∪ seen)
                  (first_occurrences entity_key (entity_of unescape <$> rest)))
        as ->.
      { apply list_filter_iff. intros y.
        rewrite elem_of_union, elem_of_singleton. tauto. }
      rewrite length_app. simpl.
      destruct (Z.geb_spec (Z.of_nat (length entities + 1)) max_links) as [Hge|Hlt].
      * replace (Z.to_nat (Z.max 1 (max_links - Z.of_nat (length entities))))
          with 1%nat by lia.
        simpl. by rewrite take_0.
      * rewrite IH, <- app_assoc, length_app. simpl.
        replace (Z.to_nat (Z.max 1 (max_links - Z.of_nat (length entities))))
          with (S (Z.to_nat (Z.max 1
                   (max_links - Z.of_nat (length entities + 1))))) by lia.
        done.
Qed.

(** [extract_entities] keeps the first occurrences of the anchors under
    [entity_key], cut after [max_links] of them, and after one of them when
    [max_links] is below 1. *)
Lemma extract_entities_take (html_text : string) (max_links : Z) :
  extract_entities unescape html_text max_links
  = take (Z.to_nat (Z.max 1 max_links))
      (first_occurrences entity_key (entity_anchors unescape html_text)).
Proof.
  unfold extract_entities, entity_anchors. rewrite extract_loop_take.
  simpl. rewrite Z.sub_0_r. f_equal.
  apply filter_all. intros x. apply not_elem_of_empty.
Qed.

(** With a cap of at least 1 the list is never longer than the cap, and has
    exactly the length of the cap when the page has more distinct anchors. *)
Lemma extract_entities_cap (html_text : string) (max_links : Z) :
  1 <= max_links ->
  Z.of_nat (length (extract_entities unescape html_text max_links))
    <= max_links
  /\ (max_links
        < Z.of_nat (length (first_occurrences entity_key
                              (entity_anchors unescape html_text))) ->
      Z.of_nat (length (extract_entities unescape html_text max_links))
        = max_links).
Proof.
  intros Hm. rewrite extract_entities_take, length_take. lia.
Qed.
End ExtractionFacts.


(** ** The cap below 1 *)

(** C2: with a cap of 0, and with a negative cap, [extract_entities]
    returns one entry for a page with two entity anchors, more than the cap
    allows: the length is compared with the cap only after an entry was
    appended. *)
Theorem extract_entities_cap_zero :
  extract_entities unescape_plain
    (anchor "/entities/Q7747" "Vladimir Putin" +:+ anchor "/entities/NK-1" "Kim")
    0
  = [("Vladimir Putin", "https://www.opensanctions.org/entities/Q7747")]
  /\ extract_entities unescape_plain
       (anchor "/entities/Q7747" "Vladimir Putin" +:+ anchor "/entities/NK-1" "Kim")
       (-1)
     = [("Vladimir Putin", "https://www.opensanctions.org/entities/Q7747")].
Proof. split; vm_compute; reflexivity. Qed.

(** For every page, a cap below 1 behaves as the cap 1. *)
Lemma extract_entities_cap_below_one (unescape : string -> string)
    (html_text : string) (max_links : Z) :
  max_links <= 0 ->
  extract_entities unescape html_text max_links
  = take 1 (first_occurrences entity_key (entity_anchors unescape html_text)).
Proof.
  intros Hm. rewrite extract_entities_take.
  by replace (Z.to_nat (Z.max 1 max_links)) with 1%nat by lia.
Qed.

(** ** One query *)

(** C4: when the page that was fetched holds the no-results marker anywhere
    (some text, the marker, some text), the row is [no_match] with count 0
    and empty entity and error cells, whatever anchors the page has and
    whatever the cap is. *)
Theorem marker_gives_no_match (unescape : string -> string) (w : world)
    (a : args) (i : nat) (name url pre post : string) :
  fetch_search_html w i name = inl (url, pre +:+ NO_MATCH_MARKER +:+ post) ->
  process_query unescape w a i name
  = Row name "no_match" 0 url EmptyString EmptyString.
Proof.
  intros Hf. unfold process_query. rewrite Hf.
  by rewrite contains_append.
Qed.

Lemma marker_gives_no_match_witness :
  process_query unescape_plain
    (page_world (anchor "/entities/Q7747" "Vladimir Putin"
                 +:+ NO_MATCH_MARKER +:+ anchor "/entities/NK-1" "Kim"))
    (cli ["Jane Doe"] false 0) 1 "Jane Doe"
  = Row "Jane Doe" "no_match" 0
      "https://www.opensanctions.org/search/?q=Jane+Doe"
      EmptyString EmptyString.
Proof.
  apply (marker_gives_no_match unescape_plain _ _ 1%nat "Jane Doe" _
           (anchor "/entities/Q7747" "Vladimir Putin")
           (anchor "/entities/NK-1" "Kim")).
  vm_compute. reflexivity.
Defined.

(** ** The error cell *)

(** The property of C1 as the specification states it fails on a page that
    has neither the marker nor an entity anchor: the row is [unknown] and
    its error cell holds the diagnostic note. *)
Lemma error_cell_of_unknown_row :
  status (process_query unescape_plain (page_world bare_page)
            (cli ["Jane Doe"] false 0) 1 "Jane Doe") = "unknown"
  /\ error (process_query unescape_plain (page_world bare_page)
              (cli ["Jane Doe"] false 0) 1 "Jane Doe")
     = "Search page returned without parseable entity links."
  /\ ~ (error (process_query unescape_plain (page_world bare_page)
                 (cli ["Jane Doe"] false 0) 1 "Jane Doe") <> EmptyString
        <-> status (process_query unescape_plain (page_world bare_page)
                      (cli ["Jane Doe"] false 0) 1 "Jane Doe") = "error").
Proof.
  assert (process_query unescape_plain (page_world bare_page)
            (cli ["Jane Doe"] false 0) 1 "Jane Doe"
          = Row "Jane Doe" "unknown" 0
              "https://www.opensanctions.org/search/?q=Jane+Doe" EmptyString
              UNKNOWN_NOTE) as -> by (vm_compute; reflexivity).
  split_and!; [done|done|].
  simpl. intros [Hne _]. by specialize (Hne ltac:(done)).
Qed.

(** C1, amended: the error cell is empty in every [match] and [no_match]
    row; in an [unknown] row it is the fixed, non-empty note; in an [error]
    row it is the text of the exception the fetch raised, and every fetch
    that raises gives an [error] row.  No other status occurs. *)
Theorem error_cell_by_status (unescape : string -> string) (w : world)
    (a : args) (i : nat) (name : string) :
  let r := process_query unescape w a i name in
  (status r = "match" \/ status r = "no_match" -> error r = EmptyString)
  /\ (status r = "unknown" -> error r = UNKNOWN_NOTE /\ error r <> EmptyString)
  /\ (status r = "error" ->
      exists exc_text,
        fetch_search_html w i name = inr exc_text /\ error r = exc_text)
  /\ (forall exc_text, fetch_search_html w i name = inr exc_text ->
        status r = "error" /\ error r = exc_text)
  /\ (status r = "match" \/ status r = "no_match" \/ status r = "unknown"
      \/ status r = "error").
Proof.
  intros r. subst r. unfold process_query.
  destruct (fetch_search_html w i name) as [[url page]|exc].
  - destruct (Py.contains _ _); [|destruct (extract_entities _ _ _)]; simpl;
      (split_and!; [ by intros [?|?] | done | done | done | tauto ]).
  - simpl. split_and!; [by intros [?|?]|done| |by intros ? [= ->]|tauto].
    intros _. by exists exc.
Qed.

(** ** The batch loop *)

Section BatchFacts.
Context (unescape : string -> string).

Lemma batch_loop_imap (w : world) (a : args) (i : nat)
    (result_rows : list result_row) (names : list string) :
  batch_loop unescape w a i result_rows names
  = result_rows
    ++ imap (fun k name => process_query unescape w a (i + k) name) names.
Proof.
  revert i result_rows.
  induction names as [|name rest IH]; intros i result_rows; simpl.
  - by rewrite app_nil_r.
  - rewrite IH, <- app_assoc. simpl. rewrite Nat.add_0_r. do 2 f_equal.
    apply imap_ext. intros k x _. simpl. f_equal. lia.
Qed.

End BatchFacts.


(** ** The report *)

(** The cell of C7 as the specification states it, every entry a title
    followed by the URL in parentheses, differs from the cell the program
    writes when an anchor has no title. *)
Lemma entity_cell_without_title :
  entity_results (process_query unescape_plain (page_world image_anchor_page)
                    (cli ["Jane Doe"] false 0) 1 "Jane Doe")
  = "https://www.opensanctions.org/entities/Q1"
  /\ Py.join " | "
       (title_url_pair
          <$> extract_entities unescape_plain image_anchor_page 3)
     = " (https://www.opensanctions.org/entities/Q1)"
  /\ entity_results (process_query unescape_plain (page_world image_anchor_page)
                       (cli ["Jane Doe"] false 0) 1 "Jane Doe")
     <> Py.join " | "
          (title_url_pair
             <$> extract_entities unescape_plain image_anchor_page 3).
Proof. split_and!; vm_compute; [reflexivity|reflexivity|discriminate]. Qed.

(** C7, amended: the report is the header line
    [query_name,status,match_count,search_url,entity_results,error] followed
    by one line per row, in the order of the rows, each with the six fields
    of the row; the entity cell is empty for an [error] row and for a page
    with the marker, and otherwise joins the entries of the extracted
    entities with [ | ], where an entry is [title (url)] for an entity with a
    title and the bare URL for an entity whose title is empty. *)
Theorem report_layout_and_entity_cell (unescape : string -> string)
    (w : world) (a : args) (i : nat) (name path : string)
    (rows : list result_row) :
  write_results path rows
  = [WriteFile path
       (("query_name,status,match_count,search_url,entity_results,error"
         +:+ CRLF)
        +:+ foldr (fun r rest => csv_line (row_fields r) +:+ rest)
              EmptyString rows)]
  /\ (forall r,
        row_fields r
        = [query_name r; status r; Py.str_nat (match_count r); search_url r;
           entity_results r; error r])
  /\ (let r := process_query unescape w a i name in
      match fetch_search_html w i name with
      | inr _ => entity_results r = EmptyString
      | inl (_, page) =>
          if Py.contains NO_MATCH_MARKER page
          then entity_results r = EmptyString
          else entity_results r
               = Py.join " | "
                   (entity_entry
                      <$> extract_entities unescape page (max_links a))
      end)
  /\ (forall title url,
        entity_entry (title, url)
        = match title with
          | EmptyString => url
          | String _ _ => title +:+ " (" +:+ url +:+ ")"
          end).
Proof.
  split_and!.
  - reflexivity.
  - done.
  - unfold process_query.
    destruct (fetch_search_html w i name) as [[url page]|exc]; [|done].
    destruct (Py.contains _ _); [done|].
    by destruct (extract_entities _ _ _).
  - by intros [|c title] url.
Qed.

(** ** The run as a whole *)

Lemma batch_loop_length (unescape : string -> string) (w : world) (a : args)
    (i : nat) (result_rows : list result_row) (names : list string) :
  length (batch_loop unescape w a i result_rows names)
  = (length result_rows + length names)%nat.
Proof. by rewrite batch_loop_imap, length_app, length_imap. Qed.




(** ** More runs of the model *)

Example same_url_two_titles :
  extract_entities unescape_plain
    (anchor "/entities/Q1" "Ann Lee" +:+ anchor "/entities/Q1" " ANN <i>lee</i>"
     +:+ anchor "/entities/Q1" "A. Lee") 3
  = [("Ann Lee", "https://www.opensanctions.org/entities/Q1");
     ("A. Lee", "https://www.opensanctions.org/entities/Q1")].
Proof. vm_compute. reflexivity. Qed.

Example batch_goes_on_after_a_timeout :
  batch_loop unescape_plain (flaky_world NO_MATCH_MARKER)
    (cli ["Jane Doe"; "Bob"] false 0) 1 [] ["Jane Doe"; "Bob"]
  = [Row "Jane Doe" "error" 0
       "https://www.opensanctions.org/search/?q=Jane+Doe" EmptyString
       "timed out";
     Row "Bob" "no_match" 0 "https://www.opensanctions.org/search/?q=Bob"
       EmptyString EmptyString].
Proof. vm_compute. reflexivity. Qed.

Example four_anchors_cap_three :
  process_query unescape_plain
    (page_world (anchor "/entities/Q1" "A" +:+ anchor "/entities/Q2" "B"
                 +:+ anchor "/entities/Q3" "C" +:+ anchor "/entities/Q4" "D"))
    (cli ["Vladimir Putin"] false 0) 1 "Vladimir Putin"
  = Row "Vladimir Putin" "match" 3
      "https://www.opensanctions.org/search/?q=Vladimir+Putin"
      ("A (https://www.opensanctions.org/entities/Q1) | "
       +:+ "B (https://www.opensanctions.org/entities/Q2) | "
       +:+ "C (https://www.opensanctions.org/entities/Q3)")
      EmptyString.
Proof. vm_compute. reflexivity. Qed.

Example report_of_two_rows :
  write_results "out.csv"
    [Row "Doe, Jane" "no_match" 0 "u1" EmptyString EmptyString;
     Row "Bob" "match" 1 "u2" "B (e)" EmptyString]
  = [WriteFile "out.csv"
       ("query_name,status,match_count,search_url,entity_results,error" +:+ CRLF
        +:+ q +:+ "Doe, Jane" +:+ q +:+ ",no_match,0,u1,," +:+ CRLF
        +:+ "Bob,match,1,u2,B (e)," +:+ CRLF)].
Proof. vm_compute. reflexivity. Qed.

(** ** Trimmed strings *)










Lemma truthy_false (s : string) : Py.truthy s = false <-> s = EmptyString.
Proof. by destruct s. Qed.

(** ** Names that reach the search *)





(** ** How a CSV row resolves to a name *)



(** ** A CSV file without the configured columns *)

Lemma blank_row_numbers_all (full_name : gmap string string -> string)
    (i : nat) (rows : list (gmap string string)) :
  (forall row, row ∈ rows -> full_name row = EmptyString) ->
  blank_row_numbers full_name i rows = seq i (length rows)
  /\ filter (fun n => Py.truthy n = true) (full_name <$> rows) = [].
Proof.
  revert i. induction rows as [|row rest IH]; intros i Hall; [done|].
  cbn [blank_row_numbers]. rewrite fmap_cons.
  rewrite (Hall row) by by left. simpl.
  destruct (IH (S i)) as [-> Hf]; [intros ??; apply Hall; by right|].
  rewrite filter_cons_False by done. by rewrite Hf.
Qed.

(** X3: when no row of the CSV file has the configured name column (or,
    with none configured, neither the first nor the last name column) and
    the CSV file is the only source, every row is skipped with the numbers
    2, 3, ..., no error is raised, and the run ends with exit code 2 after
    the single line on the error stream: the notice about the skipped rows
    is never printed. *)
Theorem csv_without_columns_gives_no_names (unescape : string -> string)
    (w : world) (a : args) (path : string)
    (rows : list (gmap string string)) :
  name a = [] -> given (input_txt a) = None ->
  given (input_csv a) = Some path ->
  csv_files w !! path = Some rows ->
  rows <> [] ->
  (forall row, row ∈ rows ->
     if Py.truthy (name_column a) then row !! name_column a = None
     else row !! first_name_column a = None
          /\ row !! last_name_column a = None) ->
  load_names_from_csv w path (name_column a) (first_name_column a)
    (last_name_column a) = Some ([], seq 2 (length rows))
  /\ build_name_list w a
     = Some ([], [skipped_notice (seq 2 (length rows))])
  /\ main unescape w a = (Exit 2, [Stderr NO_NAMES]).
Proof.
  intros Hname Htxt Hcsv Hrows Hne Hcols.
  assert (forall row, row ∈ rows ->
            full_name_of (name_column a) (first_name_column a)
              (last_name_column a) row = EmptyString) as Hblank.
  { intros row Hrow. specialize (Hcols row Hrow). unfold full_name_of, cell.
    destruct (Py.truthy (name_column a)).
    - by rewrite Hcols.
    - destruct Hcols as [-> ->]. done. }
  destruct (blank_row_numbers_all _ 2 rows Hblank) as [Hnum Hnames].
  assert (load_names_from_csv w path (name_column a) (first_name_column a)
            (last_name_column a) = Some ([], seq 2 (length rows))) as Hload.
  { unfold load_names_from_csv. rewrite Hrows, csv_loop_spec. simpl.
    by rewrite Hnum, Hnames. }
  assert (build_name_list w a
          = Some ([], [skipped_notice (seq 2 (length rows))])) as Hbuild.
  { unfold build_name_list, collect_names.
    rewrite Hname, Htxt, Hcsv, Hload. simpl.
    destruct rows as [|row rest]; [done|]. simpl.
    by destruct (no_dedupe a). }
  split_and!; [done|done|].
  unfold main. by rewrite Hbuild.
Qed.

Lemma csv_without_columns_gives_no_names_witness :
  main unescape_plain
    (csv_world "people.csv"
       [{[ "first" := "Jane"; "last" := "Doe" ]}; {[ "first" := "Bob" ]}])
    (cli_csv "people.csv")
  = (Exit 2, [Stderr NO_NAMES]).
Proof.
  apply (csv_without_columns_gives_no_names unescape_plain
           (csv_world "people.csv"
              [{[ "first" := "Jane"; "last" := "Doe" ]}; {[ "first" := "Bob" ]}])
           (cli_csv "people.csv") "people.csv"
           [{[ "first" := "Jane"; "last" := "Doe" ]}; {[ "first" := "Bob" ]}]);
    try reflexivity; [done|].
  intros row Hrow. simpl.
  repeat (apply elem_of_cons in Hrow as [->|Hrow]; [by vm_compute|]).
  by apply elem_of_nil in Hrow.
Defined.

(** ** Deduplicating twice *)

Section FirstOccurrencesMore.
Context {A K : Type} `{EqDecision K} (key : A -> K).



End FirstOccurrencesMore.


(** ** The search URL *)

(** What [Py.quote_plus] does with each of the 256 characters. *)
Lemma quote_plus_char_facts (c : ascii) :
  ((N_of_ascii c =? 32)%N = true -> c = " "%char)
  /\ (Py.always_safe c = true ->
      Ascii.eqb c "+"%char = false /\ Ascii.eqb c "%"%char = false)
  /\ ascii_of_N (16 * hex_value (Py.hex_digit (N_of_ascii c / 16))
                 + hex_value (Py.hex_digit (N_of_ascii c mod 16))) = c
  /\ url_char (Py.hex_digit (N_of_ascii c / 16)) = true
  /\ url_char (Py.hex_digit (N_of_ascii c mod 16)) = true
  /\ (Py.always_safe c = true -> url_char c = true).
Proof.
  destruct c as [[] [] [] [] [] [] [] []]; vm_compute;
    (split_and!; [by intros|by intros|reflexivity..|by intros]).
Qed.

Lemma unquote_plus_quote_plus (s : string) :
  unquote_plus (Py.quote_plus s) = s.
Proof.
  induction s as [|c s IH]; [done|].
  destruct (quote_plus_char_facts c) as (Hsp & Hsafe & Hhex & _).
  cbn [Py.quote_plus]. cbv zeta.
  destruct (N_of_ascii c =? 32)%N eqn:E32.
  - rewrite (Hsp eq_refl). cbn [unquote_plus]. simpl Ascii.eqb. cbv iota.
    by rewrite IH.
  - destruct (Py.always_safe c) eqn:Es.
    + destruct (Hsafe eq_refl) as [Hp Hq].
      cbn [unquote_plus]. by rewrite Hp, Hq, IH.
    + cbn [unquote_plus]. simpl Ascii.eqb. cbv iota.
      by rewrite Hhex, IH.
Qed.

Lemma quote_plus_url_chars (s : string) :
  Re.all_chars url_char (Py.quote_plus s) = true.
Proof.
  induction s as [|c s IH]; [done|].
  destruct (quote_plus_char_facts c) as (_ & _ & _ & Hhi & Hlo & Hsafe).
  cbn [Py.quote_plus]. cbv zeta.
  destruct (N_of_ascii c =? 32)%N.
  - cbn [Re.all_chars]. by rewrite IH.
  - destruct (Py.always_safe c) eqn:Es.
    + cbn [Re.all_chars]. by rewrite (Hsafe eq_refl), IH.
    + cbn [Re.all_chars]. by rewrite Hhi, Hlo, IH.
Qed.

Lemma quote_plus_inj (s t : string) :
  Py.quote_plus s = Py.quote_plus t -> s = t.
Proof.
  intros H. rewrite <- (unquote_plus_quote_plus s), H.
  apply unquote_plus_quote_plus.
Qed.

Lemma process_query_url (unescape : string -> string) (w : world) (a : args)
    (i : nat) (name : string) :
  search_url (process_query unescape w a i name)
  = BASE_SEARCH_URL (Py.quote_plus name).
Proof.
  unfold process_query, fetch_search_html.
  destruct (net w i _) as [page|exc]; [|done].
  destruct (Py.contains _ _); [done|].
  by destruct (extract_entities _ _ _).
Qed.

(** X5: in every row, whatever the outcome of the query, the search URL is
    the fixed prefix followed by the quoted name; the quoted name holds only
    letters, digits and the characters [_.-~+%], and decodes back to the
    name, so two rows have the same search URL only for the same name. *)
Theorem search_url_determines_name (unescape : string -> string)
    (w : world) (a : args) (i j : nat) (name1 name2 : string) :
  (exists query,
     search_url (process_query unescape w a i name1)
     = "https://www.opensanctions.org/search/?q=" +:+ query
     /\ Re.all_chars url_char query = true
     /\ unquote_plus query = name1)
  /\ (search_url (process_query unescape w a i name1)
      = search_url (process_query unescape w a j name2) -> name1 = name2).
Proof.
  rewrite !process_query_url. split.
  - exists (Py.quote_plus name1).
    split_and!; [done|apply quote_plus_url_chars|apply unquote_plus_quote_plus].
  - unfold BASE_SEARCH_URL. intros H%(inj (String.app _)).
    by apply quote_plus_inj.
Qed.

(** ** Where entity links come from *)

Lemma findall_from_sound (skip : nat) (s : string) (m : string * string) :
  m ∈ Re.findall_from skip s ->
  exists pre s' rest, s = pre +:+ s' /\ Re.anchor_at s' = Some (m, rest).
Proof.
  revert skip. induction s as [|c r IH]; intros skip.
  - destruct skip; simpl; by intros ?%elem_of_nil.
  - assert (forall n, m ∈ Re.findall_from n r ->
              exists pre s' rest,
                String c r = pre +:+ s' /\ Re.anchor_at s' = Some (m, rest))
      as Htail.
    { intros n (pre & s' & rest & -> & Ha)%IH.
      by exists (String c pre), s', rest. }
    destruct skip as [|n]; cbn [Re.findall_from]; [|apply Htail].
    destruct (Re.anchor_at (String c r)) as [[[g1 g2] rest]|] eqn:E;
      [|apply Htail].
    intros [->|Hm]%elem_of_cons; [|by eapply Htail].
    by exists EmptyString, (String c r), rest.
Qed.

(** Every match of [findall] is an anchor of the page with a target under
    [/entities/]. *)
Lemma findall_sound (s rel_url raw_title : string) :
  (rel_url, raw_title) ∈ Re.findall s ->
  exists pre attrs u attrs' post,
    s = pre +:+ "<a" +:+ attrs +:+ "href=" +:+ q +:+ rel_url +:+ q
        +:+ attrs' +:+ ">" +:+ raw_title +:+ "</a>" +:+ post
    /\ rel_url = "/entities/" +:+ u /\ u <> EmptyString
    /\ Re.all_chars Re.not_dquote u = true.
Proof.
  intros (pre & s' & rest & -> & Ha)%findall_from_sound.
  apply anchor_at_sound in Ha
    as (attrs & u & attrs' & -> & -> & _ & _ & Hu & Hq & _).
  by exists pre, attrs, u, attrs', rest.
Qed.

Lemma extract_entities_from_anchors (unescape : string -> string)
    (html_text : string) (max_links : Z) (e : string * string) :
  e ∈ extract_entities unescape html_text max_links ->
  e ∈ entity_anchors unescape html_text.
Proof.
  rewrite extract_entities_take. intros He.
  apply first_occurrences_elem with (key := entity_key).
  eapply elem_of_sublist; [exact He|apply sublist_take].
Qed.



(** ** Raising the cap *)

Lemma extract_entities_nil_iff (unescape : string -> string)
    (html_text : string) (max_links : Z) :
  extract_entities unescape html_text max_links = []
  <-> Re.findall html_text = [].
Proof.
  rewrite extract_entities_take. unfold entity_anchors.
  destruct (Re.findall html_text) as [|x l]; [simpl; by rewrite take_nil|].
  rewrite fmap_cons. cbn [first_occurrences].
  replace (Z.to_nat (Z.max 1 max_links))
    with (S (Z.to_nat (Z.max 1 max_links) - 1)) by lia.
  done.
Qed.

(** X7: with a larger cap the list only grows at its end: the list for the
    cap [m] is the list for any cap [n] above it, cut after [m] entries
    (after one entry when [m] is below 1). *)
Theorem larger_cap_extends_the_list (unescape : string -> string)
    (html_text : string) (m n : Z) :
  m <= n ->
  extract_entities unescape html_text m
  = take (Z.to_nat (Z.max 1 m)) (extract_entities unescape html_text n).
Proof.
  intros Hmn. rewrite !extract_entities_take, take_take. f_equal. lia.
Qed.

Lemma larger_cap_extends_the_list_witness :
  extract_entities unescape_plain
    (anchor "/entities/Q1" "A" +:+ anchor "/entities/Q2" "B"
     +:+ anchor "/entities/Q3" "C") 2
  = take 2
      (extract_entities unescape_plain
         (anchor "/entities/Q1" "A" +:+ anchor "/entities/Q2" "B"
          +:+ anchor "/entities/Q3" "C") 3).
Proof.
  apply (larger_cap_extends_the_list unescape_plain _ 2 3). lia.
Defined.

(** ** The status of a row *)

(** X8: for a page that was fetched, the status depends only on the page,
    never on the cap: [no_match] exactly when the page holds the marker,
    [unknown] exactly when it holds neither the marker nor a match of the
    anchor pattern, [match] exactly when it holds no marker and at least one
    match of the pattern; it is never [error]. *)
Theorem status_by_page (unescape : string -> string) (w : world) (a : args)
    (i : nat) (name url page : string) :
  fetch_search_html w i name = inl (url, page) ->
  let r := process_query unescape w a i name in
  (status r = "no_match"
   <-> exists pre post, page = pre +:+ NO_MATCH_MARKER +:+ post)
  /\ (status r = "unknown"
      <-> Py.contains NO_MATCH_MARKER page = false /\ Re.findall page = [])
  /\ (status r = "match"
      <-> Py.contains NO_MATCH_MARKER page = false /\ Re.findall page <> [])
  /\ status r <> "error".
Proof.
  intros Hf r. subst r. unfold process_query. rewrite Hf.
  destruct (Py.contains NO_MATCH_MARKER page) eqn:Hc.
  - simpl. split_and!.
    + split; [intros _; by apply contains_true|done].
    + split; [done|by intros [? _]].
    + split; [done|by intros [? _]].
    + done.
  - assert (~ exists pre post, page = pre +:+ NO_MATCH_MARKER +:+ post)
      as Hno.
    { intros (pre & post & ->). by rewrite contains_append in Hc. }
    pose proof (extract_entities_nil_iff unescape page (max_links a)) as Hnil.
    destruct (extract_entities unescape page (max_links a)) as [|e l]; simpl.
    + assert (Re.findall page = []) as Hn by by apply Hnil.
      split_and!.
      * split; [done|]. intros ?. by destruct Hno.
      * split; [done|done].
      * split; [done|]. by intros [_ ?].
      * done.
    + assert (Re.findall page <> []) as Hne.
      { intros Hn. by apply Hnil in Hn. }
      split_and!.
      * split; [done|]. intros ?. by destruct Hno.
      * split; [done|]. by intros [_ ?].
      * split; [done|done].
      * done.
Qed.

Lemma status_by_page_witness :
  status (process_query unescape_plain (page_world bare_page)
            (cli ["Jane Doe"] false 0) 1 "Jane Doe") = "unknown"
  <-> Py.contains NO_MATCH_MARKER bare_page = false
      /\ Re.findall bare_page = [].
Proof.
  apply (status_by_page unescape_plain (page_world bare_page)
           (cli ["Jane Doe"] false 0) 1 "Jane Doe"
           "https://www.opensanctions.org/search/?q=Jane+Doe" bare_page).
  vm_compute. reflexivity.
Defined.

(** ** The count and the entity cell of a row *)

Lemma join_cons_nonempty (sep x : string) (l : list string) :
  x <> EmptyString -> Py.join sep (x :: l) <> EmptyString.
Proof.
  intros Hx. destruct x as [|c x]; [done|]. by destruct l.
Qed.

Lemma entity_entry_nonempty (e : string * string) :
  e.2 <> EmptyString -> entity_entry e <> EmptyString.
Proof.
  destruct e as [title url]. simpl. intros Hu.
  destruct title as [|c t]; [done|]. done.
Qed.

(** X9: in every row the count is non-zero exactly when the status is
    [match], and so is the entity cell non-empty; the count never exceeds
    the cap (or 1 for a cap below 1), and in a [match] row it is the number
    of entities extracted from the page. *)
Theorem count_and_entity_cell_follow_status (unescape : string -> string)
    (w : world) (a : args) (i : nat) (name : string) :
  let r := process_query unescape w a i name in
  (status r = "match" <-> match_count r <> 0%nat)
  /\ (status r = "match" <-> entity_results r <> EmptyString)
  /\ Z.of_nat (match_count r) <= Z.max 1 (max_links a)
  /\ (status r = "match" ->
      exists url page,
        fetch_search_html w i name = inl (url, page)
        /\ match_count r
           = length (extract_entities unescape page (max_links a))).
Proof.
  intros r. subst r. unfold process_query.
  destruct (fetch_search_html w i name) as [[url page]|exc] eqn:Hf;
    [|simpl; split_and!; try done; lia].
  destruct (Py.contains NO_MATCH_MARKER page);
    [simpl; split_and!; try done; lia|].
  pose proof (extract_entities_take unescape page (max_links a)) as Htake.
  destruct (extract_entities unescape page (max_links a)) as [|e l] eqn:He;
    [simpl; split_and!; try done; lia|].
  cbn [status match_count entity_results].
  split; [done|]. split; [|split].
  - split; [intros _|done]. rewrite fmap_cons.
    apply join_cons_nonempty, entity_entry_nonempty.
    assert (e ∈ extract_entities unescape page (max_links a)) as Hin
      by (rewrite He; by left).
    apply extract_entities_from_anchors, list_elem_of_fmap in Hin
      as (m & -> & _). done.
  - apply (f_equal length) in Htake. rewrite length_take in Htake. lia.
  - intros _. exists url, page. by rewrite He.
Qed.

(** ** The summary line *)

Lemma process_query_status (unescape : string -> string) (w : world)
    (a : args) (i : nat) (name : string) :
  status (process_query unescape w a i name)
    ∈ ["match"; "no_match"; "unknown"; "error"].
Proof.
  unfold process_query.
  destruct (fetch_search_html w i name) as [[url page]|exc];
    [|simpl; set_solver].
  destruct (Py.contains _ _); [simpl; set_solver|].
  destruct (extract_entities _ _ _); simpl; set_solver.
Qed.

Lemma count_status_partition (rows : list result_row) :
  Forall (fun r => status r ∈ ["match"; "no_match"; "unknown"; "error"])
    rows ->
  (count_status "match" rows + count_status "no_match" rows
   + count_status "unknown" rows + count_status "error" rows)%nat
  = length rows.
Proof.
  unfold count_status. induction 1 as [|r rows Hr _ IH]; [done|].
  rewrite !filter_cons. simpl length.
  repeat (apply elem_of_cons in Hr as [->|Hr]);
    [..|by apply elem_of_nil in Hr];
    repeat case_decide; try done; simpl; lia.
Qed.

(** X10: the total of the summary line is the number of names searched,
    and the counts of [match], [no_match] and [error] rows it prints,
    together with the [unknown] rows it does not mention, add up to that
    total. *)
Theorem summary_counts_add_up (unescape : string -> string) (w : world)
    (a : args) (names : list string) :
  let rows := batch_loop unescape w a 1 [] names in
  summary a rows
  = "Done. Output: " +:+ output a
    +:+ " | total=" +:+ Py.str_nat (length names)
    +:+ ", match=" +:+ Py.str_nat (count_status "match" rows)
    +:+ ", no_match=" +:+ Py.str_nat (count_status "no_match" rows)
    +:+ ", error=" +:+ Py.str_nat (count_status "error" rows)
  /\ (count_status "match" rows + count_status "no_match" rows
      + count_status "error" rows + count_status "unknown" rows)%nat
     = length names.
Proof.
  intros rows.
  assert (length rows = length names) as Hlen.
  { subst rows. by rewrite batch_loop_length. }
  split; [unfold summary; by rewrite Hlen|].
  rewrite <- Hlen, <- (count_status_partition rows); [lia|].
  subst rows. rewrite batch_loop_imap, app_nil_l.
  apply Forall_forall. intros r Hr.
  apply list_elem_of_lookup in Hr as [k Hk].
  rewrite list_lookup_imap in Hk.
  destruct (names !! k) as [name|]; [|done].
  injection Hk as <-. apply process_query_status.
Qed.

(** ** Which names are searched *)




(** ** An input file that cannot be opened *)

(** X12: when the text file or the CSV file named on the command line
    cannot be opened, no name list is built and the run ends in an uncaught
    exception with nothing printed and no report written, even when names
    were given with [--name]. *)
Theorem unreadable_input_is_fatal (unescape : string -> string) (w : world)
    (a : args) (path : string) :
  given (input_txt a) = Some path /\ txt_files w !! path = None
  \/ given (input_csv a) = Some path /\ csv_files w !! path = None ->
  build_name_list w a = None
  /\ main unescape w a = (Uncaught, []).
Proof.
  intros H.
  assert (collect_names w a = None) as Hc.
  { unfold collect_names, load_names_from_txt, load_names_from_csv.
    destruct H as [[-> ->]|[-> ->]]; [done|].
    by destruct (match given (input_txt a) with
                 | Some p => _ | None => _ end). }
  unfold main, build_name_list. by rewrite Hc.
Qed.

Lemma unreadable_input_is_fatal_witness :
  main unescape_plain quiet_world
    (Args ["Jane Doe"] (Some "missing.txt") None EmptyString "Vorname"
       "Nachname" "out.csv" 3 false 0)
  = (Uncaught, []).
Proof.
  apply (unreadable_input_is_fatal unescape_plain quiet_world
           (Args ["Jane Doe"] (Some "missing.txt") None EmptyString "Vorname"
              "Nachname" "out.csv" 3 false 0) "missing.txt").
  left. split; reflexivity.
Defined.

(** ** The report determines the rows *)

Lemma is_sep_facts (c : ascii) :
  (is_sep c = true -> Ascii.eqb c Py.dquote = false /\ csv_special c = true)
  /\ (csv_special c = false ->
      is_sep c = false /\ Ascii.eqb c Py.dquote = false).
Proof.
  destruct c as [[] [] [] [] [] [] [] []]; vm_compute; split; by intros.
Qed.

Lemma read_plain_field (f x : string) :
  csv_needs_quotes f = false -> starts_with_sep x ->
  read_plain (f +:+ x) = (f, x).
Proof.
  intros Hf (c & r & -> & Hc). induction f as [|d f IH].
  - rewrite append_nil. simpl. by rewrite Hc.
  - simpl in Hf. apply orb_false_iff in Hf as [Hd Hf].
    rewrite append_cons. simpl.
    destruct (is_sep_facts d) as [_ [-> _]]; [done|].
    by rewrite IH.
Qed.

Lemma read_quoted_field (f x : string) :
  starts_with_sep x ->
  read_quoted (csv_double_quotes f +:+ String Py.dquote x) = (f, x).
Proof.
  intros (c & r & -> & Hc). induction f as [|d f IH].
  - rewrite append_nil. simpl.
    by destruct (is_sep_facts c) as [[-> _] _].
  - simpl. destruct (Ascii.eqb_spec d Py.dquote) as [->|Hd].
    + rewrite !append_cons.
      change (read_quoted (String Py.dquote (String Py.dquote ?s)))
        with (let '(f, rest) := read_quoted s in (String Py.dquote f, rest)).
      by rewrite IH.
    + rewrite append_cons. simpl.
      destruct (Ascii.eqb_spec d Py.dquote) as [|_]; [done|].
      by rewrite IH.
Qed.

Lemma read_field_csv_field (f x : string) :
  starts_with_sep x -> read_field (csv_field f +:+ x) = (f, x).
Proof.
  intros Hx. unfold csv_field.
  destruct (csv_needs_quotes f) eqn:Hq.
  - rewrite append_cons, append_assoc. simpl.
    by apply read_quoted_field.
  - rewrite <- (read_plain_field f x Hq Hx).
    destruct Hx as (c & r & -> & Hc).
    destruct f as [|d f].
    + rewrite append_nil. simpl.
      by destruct (is_sep_facts c) as [[-> _] _].
    + simpl in Hq. apply orb_false_iff in Hq as [Hd _].
      rewrite append_cons. unfold read_field.
      by destruct (is_sep_facts d) as [_ [_ ->]].
Qed.

Lemma join_cons_cons (sep p p' : string) (rest : list string) :
  Py.join sep (p :: p' :: rest) = p +:+ sep +:+ Py.join sep (p' :: rest).
Proof. reflexivity. Qed.

(** Two lines that agree, each followed by a line end, have the same
    fields. *)
Lemma csv_fields_inj (fs1 : list string) :
  forall (f1 f2 : string) (fs2 : list string) (t1 t2 : string),
    Py.join "," (csv_field <$> f1 :: fs1) +:+ CRLF +:+ t1
    = Py.join "," (csv_field <$> f2 :: fs2) +:+ CRLF +:+ t2 ->
    f1 :: fs1 = f2 :: fs2 /\ t1 = t2.
Proof.
  assert (forall t, starts_with_sep (CRLF +:+ t)) as Hcr.
  { intros t. by eexists _, _. }
  assert (forall s, starts_with_sep ("," +:+ s)) as Hcomma.
  { intros s. by eexists _, _. }
  induction fs1 as [|g1 fs1 IH]; intros f1 f2 fs2 t1 t2 H.
  - destruct fs2 as [|g2 fs2].
    + simpl in H. apply (f_equal read_field) in H.
      rewrite !read_field_csv_field in H by done.
      injection H as -> H. by apply (inj (String.app _)) in H as ->.
    + rewrite !fmap_cons, join_cons_cons in H. simpl Py.join in H.
      rewrite !append_assoc in H. apply (f_equal read_field) in H.
      rewrite !read_field_csv_field in H by done. by injection H.
  - destruct fs2 as [|g2 fs2].
    + rewrite !fmap_cons, join_cons_cons in H. simpl Py.join in H.
      rewrite !append_assoc in H. apply (f_equal read_field) in H.
      rewrite !read_field_csv_field in H by done. by injection H.
    + rewrite !fmap_cons, !join_cons_cons, !append_assoc in H.
      apply (f_equal read_field) in H.
      rewrite !read_field_csv_field in H by done.
      injection H as -> H. apply (inj (String.app _)) in H.
      apply IH in H as [-> ->]. done.
Qed.

Lemma row_fields_inj (r1 r2 : result_row) :
  row_fields r1 = row_fields r2 -> r1 = r2.
Proof.
  destruct r1, r2. unfold row_fields. simpl.
  intros [= -> -> Hn -> -> ->]. apply (inj pretty) in Hn. by subst.
Qed.

Lemma csv_line_nonempty (fields : list string) (t : string) :
  csv_line fields +:+ t <> EmptyString.
Proof.
  unfold csv_line. rewrite append_assoc.
  destruct (Py.join "," (csv_field <$> fields)) as [|c s].
  - rewrite append_nil. unfold CRLF. by rewrite append_cons.
  - by rewrite append_cons.
Qed.

Lemma writerows_inj (rows1 rows2 : list result_row) :
  writerows rows1 = writerows rows2 -> rows1 = rows2.
Proof.
  revert rows2.
  induction rows1 as [|r1 rows1 IH]; intros [|r2 rows2];
    cbn [writerows]; intros H.
  - done.
  - symmetry in H. by apply csv_line_nonempty in H.
  - by apply csv_line_nonempty in H.
  - unfold csv_line in H. rewrite !append_assoc in H.
    unfold row_fields at 1 2 in H.
    apply csv_fields_inj in H as [Hf ->%IH].
    f_equal. by apply row_fields_inj.
Qed.

(** X13: the report file determines the report: two runs of
    [write_results] that write the same thing were given the same path and
    the same rows in the same order, whatever commas, quotes and line breaks
    the cells hold. *)
Theorem report_determines_rows (path1 path2 : string)
    (rows1 rows2 : list result_row) :
  write_results path1 rows1 = write_results path2 rows2 ->
  path1 = path2 /\ rows1 = rows2.
Proof.
  unfold write_results. intros [= -> H]. split; [done|].
  apply (inj (String.app _)) in H. by apply writerows_inj.
Qed.

Lemma report_determines_rows_witness :
  write_results "out.csv"
    [Row "Doe, Jane" "error" 0 "u" EmptyString "timed out"]
  <> write_results "out.csv"
       [Row "Doe" " Jane,error" 0 "u" EmptyString "timed out"].
Proof.
  intros H.
  apply (report_determines_rows "out.csv" "out.csv"
           [Row "Doe, Jane" "error" 0 "u" EmptyString "timed out"]
           [Row "Doe" " Jane,error" 0 "u" EmptyString "timed out"]) in H
    as [_ H].
  discriminate H.
Defined.

(** ** The terminal program *)

(** X14: the terminal program and the batch program classify alike: for
    the same name, request and cap, [search_once] prints the status of the
    row [process_query] builds, returns 1 exactly when that status is
    [error] and 0 otherwise, prints the count of that row for a [match] and
    the search URL of that row whenever the fetch succeeded. *)
Theorem terminal_agrees_with_batch (unescape : string -> string)
    (w : world) (a : args) (i : nat) (name : string) :
  let r := process_query unescape w a i name in
  let result := Terminal.search_once unescape w i name (max_links a) in
  Terminal.Print ("Status: " +:+ status r) ∈ result.2
  /\ (result.1 = 1 <-> status r = "error")
  /\ (result.1 = 0 <-> status r <> "error")
  /\ (status r = "match" ->
      Terminal.Print
        ("Treffer (max " +:+ Terminal.str_Z (max_links a) +:+ "): "
         +:+ Py.str_nat (match_count r)) ∈ result.2)
  /\ (status r <> "error" ->
      Terminal.Print ("Suche: " +:+ search_url r) ∈ result.2).
Proof.
  intros r result. subst r result.
  unfold process_query, Terminal.search_once.
  destruct (fetch_search_html w i name) as [[url page]|exc].
  - destruct (Py.contains NO_MATCH_MARKER page).
    + simpl. split_and!; try done; set_solver.
    + destruct (extract_entities unescape page (max_links a)) as [|e l].
      * simpl. split_and!; try done; set_solver.
      * cbn [fst snd status match_count search_url].
        split_and!; try done; intros; set_solver.
  - simpl. split_and!; try done; set_solver.
Qed.





(** X16: nothing is read after a quit command: the lines that follow it
    change neither the output nor the result of the interactive loop. *)
Theorem nothing_is_read_after_quit (unescape : string -> string)
    (w : world) (max_links : Z) (clock : nat -> string)
    (before after : list string) (line : string) :
  Py.lower (Py.strip line) ∈ Terminal.QUIT_COMMANDS ->
  Terminal.interactive_loop unescape w max_links clock
    (before ++ line :: after)
  = Terminal.interactive_loop unescape w max_links clock (before ++ [line]).
Proof.
  intros Hq. unfold Terminal.interactive_loop.
  assert (forall k,
            Terminal.interactive_from unescape w max_links clock k
              (before ++ line :: after)
            = Terminal.interactive_from unescape w max_links clock k
                (before ++ [line])) as ->; [|done].
  induction before as [|l before IH]; intros k.
  - simpl. destruct (Py.truthy (Py.strip line)) eqn:Ht; simpl.
    + by rewrite !decide_True by done.
    + apply truthy_false in Ht. rewrite Ht in Hq. by vm_compute in Hq.
  - cbn [app Terminal.interactive_from].
    destruct (Py.truthy (Py.strip l)); cbn [negb]; [|by rewrite IH].
    destruct (decide _); [done|]. by rewrite IH.
Qed.

Lemma nothing_is_read_after_quit_witness :
  Terminal.interactive_loop unescape_plain quiet_world 5 tick_clock
    ["Jane Doe"; "  "; " QUIT "; "Bob"; "Cy"]
  = Terminal.interactive_loop unescape_plain quiet_world 5 tick_clock
      ["Jane Doe"; "  "; " QUIT "].
Proof.
  apply (nothing_is_read_after_quit unescape_plain quiet_world 5 tick_clock
           ["Jane Doe"; "  "] ["Bob"; "Cy"] " QUIT ").
  vm_compute. reflexivity.
Defined.


(** ** Stripping tags *)

Lemma lit_char_cons {A} (p c : ascii) (r : string)
    (k : string -> option A) :
  Re.lit (String p EmptyString) (String c r) k
  = if Ascii.eqb c p then k r else None.
Proof.
  unfold Re.lit. cbn [Py.strip_prefix]. rewrite (Ascii.eqb_sym p c).
  destruct (Ascii.eqb c p); [|done]. by destruct r.
Qed.

Lemma tag_tail_None (s : string) :
  tag_tail s = None <-> Re.all_chars Re.not_gt s = true.
Proof.
  unfold tag_tail. induction s as [|c r IH]; [by vm_compute|].
  cbn [Re.star_greedy Re.all_chars]. cbv beta.
  rewrite lit_char_cons. unfold Re.not_gt at 1 3.
  destruct (Ascii.eqb c ">"%char); cbn [negb andb]; [done|].
  destruct (Re.star_greedy Re.not_gt r _) as [x|] eqn:E.
  - split; [done|]. intros Hr%IH. congruence.
  - rewrite <- IH. done.
Qed.

Lemma tag_at_cons (c : ascii) (r : string) :
  Re.tag_at (String c r)
  = if Ascii.eqb c "<"%char then
      match r with
      | String d r' => if Re.not_gt d then tag_tail r' else None
      | EmptyString => None
      end
    else None.
Proof.
  unfold Re.tag_at. rewrite lit_char_cons.
  destruct (Ascii.eqb c "<"%char); [|done]. by destruct r.
Qed.

Lemma sub_tags_from_keeps_no_gt (skip : nat) (s : string) :
  Re.all_chars Re.not_gt s = true ->
  Re.all_chars Re.not_gt (Re.sub_tags_from skip s) = true.
Proof.
  revert skip. induction s as [|c r IH]; intros skip; [by destruct skip|].
  simpl Re.all_chars. intros [Hc Hr]%andb_true_iff.
  destruct skip as [|n]; cbn [Re.sub_tags_from]; [|by apply IH].
  destruct (Re.tag_at (String c r)); [by apply IH|].
  simpl. by rewrite Hc, IH.
Qed.

Lemma sub_tags_from_idem (skip : nat) (s : string) :
  Re.sub_tags_from 0 (Re.sub_tags_from skip s) = Re.sub_tags_from skip s.
Proof.
  revert skip. induction s as [|c r IH]; intros skip; [by destruct skip|].
  destruct skip as [|n]; cbn [Re.sub_tags_from]; [|apply IH].
  destruct (Re.tag_at (String c r)) as [rest|] eqn:E; [apply IH|].
  assert (Re.tag_at (String c (Re.sub_tags_from 0 r)) = None) as Hno.
  { rewrite tag_at_cons in E. rewrite tag_at_cons.
    destruct (Ascii.eqb c "<"%char); [|done].
    destruct r as [|d r']; [done|].
    destruct (Re.not_gt d) eqn:Hd.
    - apply tag_tail_None in E.
      assert (Re.all_chars Re.not_gt (Re.sub_tags_from 0 (String d r'))
              = true) as Hall.
      { apply sub_tags_from_keeps_no_gt. simpl. by rewrite Hd, E. }
      destruct (Re.sub_tags_from 0 (String d r')) as [|d' t]; [done|].
      simpl in Hall. apply andb_true_iff in Hall as [-> Ht].
      by apply tag_tail_None.
    - cbn [Re.sub_tags_from]. rewrite tag_at_cons.
      unfold Re.not_gt in Hd.
      apply negb_false_iff, Ascii.eqb_eq in Hd as ->. simpl.
      done. }
  cbn [Re.sub_tags_from]. rewrite Hno. by rewrite IH.
Qed.

Lemma sub_tags_from_length (skip : nat) (s : string) :
  (String.length (Re.sub_tags_from skip s) <= String.length s)%nat.
Proof.
  revert skip. induction s as [|c r IH]; intros skip; [by destruct skip|].
  destruct skip as [|n]; cbn [Re.sub_tags_from].
  - destruct (Re.tag_at (String c r)); simpl.
    + specialize (IH (String.length (String c r) - String.length s - 1)%nat).
      simpl in IH. lia.
    + specialize (IH 0%nat). lia.
  - specialize (IH n). simpl. lia.
Qed.

Lemma sub_tags_fixed_no_tag (t : string) :
  Re.sub_tags_from 0 t = t ->
  forall pre post, t = pre +:+ post -> Re.tag_at post = None.
Proof.
  induction t as [|c r IH]; intros Hfix pre post Ht.
  - destruct pre; [|done]. rewrite append_nil in Ht. by subst.
  - cbn [Re.sub_tags_from] in Hfix.
    destruct (Re.tag_at (String c r)) as [rest|] eqn:E.
    + apply (f_equal String.length) in Hfix.
      pose proof (sub_tags_from_length
                    (String.length (String c r) - String.length rest - 1) r).
      simpl in *. lia.
    + injection Hfix as Hfix. destruct pre as [|d pre].
      * rewrite append_nil in Ht. by subst.
      * rewrite append_cons in Ht. injection Ht as _ ->.
        by eapply IH.
Qed.

Lemma sub_tags_from_no_gt (s : string) :
  Re.all_chars Re.not_gt s = true -> Re.sub_tags_from 0 s = s.
Proof.
  induction s as [|c r IH]; [done|].
  intros Hall. cbn [Re.sub_tags_from].
  assert (Re.tag_at (String c r) = None) as ->.
  { rewrite tag_at_cons. destruct (Ascii.eqb c "<"%char); [|done].
    destruct r as [|d r']; [done|].
    simpl in Hall. apply andb_true_iff in Hall as [_ Hall].
    apply andb_true_iff in Hall as [-> Hall]. by apply tag_tail_None. }
  simpl in Hall. apply andb_true_iff in Hall as [_ Hall]. by rewrite IH.
Qed.

(** X18: one pass of tag stripping is enough: the stripped text holds no
    match of the tag pattern at any position, so stripping it again changes
    nothing; stripping never makes a text longer and leaves a text without
    [>] as it is. *)
Theorem stripping_tags_once_is_enough (s : string) :
  Re.sub_tags (Re.sub_tags s) = Re.sub_tags s
  /\ (forall pre post, Re.sub_tags s = pre +:+ post -> Re.tag_at post = None)
  /\ (String.length (Re.sub_tags s) <= String.length s)%nat
  /\ (Re.all_chars Re.not_gt s = true -> Re.sub_tags s = s).
Proof.
  unfold Re.sub_tags. split_and!.
  - apply sub_tags_from_idem.
  - apply sub_tags_fixed_no_tag, sub_tags_from_idem.
  - apply sub_tags_from_length.
  - apply sub_tags_from_no_gt.
Qed.

(** ** Where the text of an anchor ends *)

Lemma star_lazy_rev_first {A} (acc s : string)
    (k : string -> string -> option A) (x : A) :
  Re.star_lazy_rev acc s k = Some x ->
  exists m rest,
    s = m +:+ rest /\ k (String.rev_app m acc) rest = Some x
    /\ forall m1 m2, m = m1 +:+ m2 -> m2 <> EmptyString ->
         k (String.rev_app m1 acc) (m2 +:+ rest) = None.
Proof.
  revert acc. induction s as [|c r IH]; intros acc; simpl.
  - destruct (k acc EmptyString) eqn:E; [|done].
    intros [= ->]. exists EmptyString, EmptyString. split_and!; [done..|].
    intros [|??] [|??] Hm Hne; done.
  - destruct (k acc (String c r)) eqn:E.
    + intros [= ->]. exists EmptyString, (String c r).
      split_and!; [done..|]. intros [|??] [|??] Hm Hne; done.
    + intros (m & rest & -> & Hk & Hmin)%IH.
      exists (String c m), rest. split_and!; [done..|].
      intros [|d m1] m2 Hm Hne.
      * rewrite append_nil in Hm. subst m2. simpl. by rewrite append_cons.
      * rewrite append_cons in Hm. injection Hm as <- ->.
        simpl. by apply Hmin.
Qed.

Lemma anchor_at_text_ends_early (s g1 g2 rest : string) :
  Re.anchor_at s = Some (g1, g2, rest) -> Py.contains "</a>" g2 = false.
Proof.
  unfold Re.anchor_at.
  intros (s1 & -> & H)%lit_sound.
  apply plus_greedy_sound in H as (attrs & s2 & -> & _ & _ & H).
  apply lit_sound in H as (s3 & -> & H).
  apply lit_sound in H as (s4 & -> & H).
  apply lit_sound in H as (s5 & -> & H).
  apply plus_greedy_sound in H as (u & s6 & -> & _ & _ & H).
  apply lit_sound in H as (s7 & -> & H).
  apply star_greedy_sound in H as (attrs' & s8 & -> & _ & H).
  apply lit_sound in H as (s9 & -> & H).
  apply star_lazy_rev_first in H as (t & s10 & -> & H & Hmin).
  apply lit_sound in H as (s11 & -> & H). injection H as _ <- _.
  assert (String.rev (String.rev_app t EmptyString) = t) as ->.
  { unfold String.rev. rewrite rev_app_rev_app. simpl.
    clear. induction t as [|c t IH]; [done|]. by rewrite append_cons, IH. }
  destruct (Py.contains "</a>" t) eqn:Hc; [|done].
  apply contains_true in Hc as (pre & post & ->).
  specialize (Hmin pre ("</a>" +:+ post) eq_refl ltac:(done)).
  unfold Re.lit in Hmin. rewrite append_assoc in Hmin.
  by rewrite strip_prefix_append in Hmin.
Qed.

(** X19: the text of an anchor, as the pattern captures it, is followed
    in the page by [</a>] and holds no [</a>] itself: it ends at the first
    closing tag after the opening one and never runs into a later
    anchor's closing tag. *)
Theorem anchor_text_ends_at_first_close (html_text rel_url raw_title : string) :
  (rel_url, raw_title) ∈ Re.findall html_text ->
  Py.contains "</a>" raw_title = false
  /\ exists pre post,
       html_text = pre +:+ ">" +:+ raw_title +:+ "</a>" +:+ post.
Proof.
  intros Hm. split.
  - apply findall_from_sound in Hm as (pre & s' & rest & _ & Ha).
    by apply anchor_at_text_ends_early in Ha.
  - apply findall_sound in Hm
      as (pre & attrs & u & attrs' & post & -> & _).
    exists (pre +:+ "<a" +:+ attrs +:+ "href=" +:+ q +:+ rel_url +:+ q
            +:+ attrs'), post.
    by rewrite !append_assoc.
Qed.

Lemma anchor_text_ends_at_first_close_witness :
  Py.contains "</a>" "Ann" = false
  /\ exists pre post,
       anchor "/entities/Q1" "Ann" +:+ "</a> and </a>"
       = pre +:+ ">" +:+ "Ann" +:+ "</a>" +:+ post.
Proof.
  apply (anchor_text_ends_at_first_close
           (anchor "/entities/Q1" "Ann" +:+ "</a> and </a>")
           "/entities/Q1" "Ann").
  vm_compute. repeat constructor.
Defined.
